(** * The MCP bridge of discord-ex-platform

    A shallow embedding of [class MCPBridge] (src/bot/discord-bot.js, second
    half of the file) and of the parts of the JavaScript semantics its methods
    rely on: JSON values, string conversion, truthiness, property lookup on an
    object literal, and the insertion-ordered [Map].

    Every method of the class is a function on the instance state
    [MCPBridge].  What the host supplies at a call is an explicit argument:
    the value of [new Date()], the outcome of the two expressions over
    [Math.random()], what [JSON.parse] makes of an inbound frame.  The
    double-precision numbers and the constructor of the [ws] package are the
    fields of the class [Host]. *)

From Stdlib Require Import String List ZArith Bool Lia DecimalString.
Import ListNotations.
Local Open Scope string_scope.
#[local] Set Warnings "-register-all".

(** ** Completions: a call returns normally or throws *)

Inductive JsError : Type :=
| Error (message : string)
| TypeError (message : string).

Inductive Completion (A : Type) : Type :=
| Normal (a : A)
| Throw (e : JsError).
Arguments Normal {A} a.
Arguments Throw {A} e.

Definition bindC {A B} (c : Completion A) (k : A -> Completion B) : Completion B :=
  match c with
  | Normal a => k a
  | Throw e => Throw e
  end.

Notation "x <- c ;; k" := (bindC c (fun x => k))
  (at level 61, c at next level, right associativity).

(** ** The insertion-ordered [Map] with string keys

    [Map_set] keeps the position of a key that is already present and appends
    a new key at the end, as the JavaScript [Map] does; iteration and
    [values()] follow the list order. *)

Definition Map (V : Type) : Type := list (string * V).

Fixpoint Map_get {V} (k : string) (m : Map V) : option V :=
  match m with
  | [] => None
  | (k', v) :: rest => if String.eqb k k' then Some v else Map_get k rest
  end.

Fixpoint Map_set {V} (k : string) (v : V) (m : Map V) : Map V :=
  match m with
  | [] => [(k, v)]
  | (k', v') :: rest =>
      if String.eqb k k' then (k', v) :: rest else (k', v') :: Map_set k v rest
  end.

Definition Map_values {V} (m : Map V) : list V := map snd m.

Definition Map_clear {V} (m : Map V) : Map V := [].

(** A [Date], in milliseconds. *)
Definition Date : Type := Z.
Bind Scope Z_scope with Date.

(** ** JSON values as the methods see them *)

(** The IEEE-754 numbers of the host, with their conversion to a string and
    the test for [0], [-0] and [NaN]; and whether [new WebSocket(url)] throws
    for an address, with the message of the error it throws. *)
Class Host : Type := {
  Number : Type;
  Number_toString : Number -> string;
  Number_isFalsy : Number -> bool;
  WebSocket_rejects : string -> option string
}.

Section Bridge.
Context {host : Host}.

Inductive value : Type :=
| VUndefined
| VNull
| VBool (b : bool)
| VNum (n : Number)
| VStr (s : string)
| VArr (items : list value)
| VObj (props : list (string * value)).

(** Own property of an object built by [JSON.parse] or by an object literal. *)
Fixpoint own_property (k : string) (props : list (string * value)) : option value :=
  match props with
  | [] => None
  | (k', v) :: rest => if String.eqb k k' then Some v else own_property k rest
  end.

Definition has_own (k : string) (props : list (string * value)) : bool :=
  match own_property k props with Some _ => true | None => false end.

(** ToBoolean. *)
Definition truthy (v : value) : bool :=
  match v with
  | VUndefined | VNull => false
  | VBool b => b
  | VNum n => negb (Number_isFalsy n)
  | VStr s => negb (String.eqb s "")
  | VArr _ | VObj _ => true
  end.

(** ToString, as a template literal and a computed property key apply it.
    A plain object prints through [Object.prototype.toString] unless an own
    property shadows [toString]: a JSON value is never callable, so the
    conversion then falls through [valueOf] to a [TypeError].  An array prints
    through [Array.prototype.join], which prints [undefined] and [null] as the
    empty string. *)
Fixpoint ToString (v : value) : Completion string :=
  match v with
  | VUndefined => Normal "undefined"
  | VNull => Normal "null"
  | VBool true => Normal "true"
  | VBool false => Normal "false"
  | VNum n => Normal (Number_toString n)
  | VStr s => Normal s
  | VArr items =>
      let element (x : value) : Completion string :=
        match x with
        | VUndefined | VNull => Normal ""
        | _ => ToString x
        end in
      (fix join (xs : list value) : Completion string :=
         match xs with
         | [] => Normal ""
         | [x] => element x
         | x :: rest =>
             s <- element x ;;
             r <- join rest ;;
             Normal (s ++ "," ++ r)
         end) items
  | VObj props =>
      if has_own "toString" props
      then Throw (TypeError "Cannot convert object to primitive value")
      else Normal "[object Object]"
  end.

(** The members every object literal inherits from [Object.prototype]. *)
Definition Object_prototype : list string :=
  [ "constructor"; "__defineGetter__"; "__defineSetter__"; "hasOwnProperty";
    "__lookupGetter__"; "__lookupSetter__"; "isPrototypeOf";
    "propertyIsEnumerable"; "toString"; "valueOf"; "__proto__";
    "toLocaleString" ].

Definition inherited (k : string) : bool :=
  existsb (String.eqb k) Object_prototype.

(** ** Data of the bridge *)

Record Tool : Type := { tool_name : string; tool_description : string }.

Record Server : Type := {
  name : string;
  url : string;
  server_status : string;
  capabilities : list string;
  tools : list Tool
}.

(** A socket of the [ws] package, known by the address it was opened on. *)
Record WebSocket : Type := { ws_url : string }.

Record Connection : Type := {
  id : string;
  server : Server;
  ws : option WebSocket;
  status : string;
  lastPing : Date;
  messageCount : Z
}.

(** Counters are integers: [++], [--] and [+=] on a JavaScript number are
    exact as long as the value stays below 2^53. *)
Record Stats : Type := {
  totalConnections : Z;
  activeConnections : Z;
  messagesProcessed : Z;
  lastActivity : Date
}.

(** A call [{ method, params }]; a property that is absent reads [VUndefined]. *)
Record Message : Type := { method : value; params : value }.

(** What [sendMessage] hands back. *)
Inductive Response : Type :=
| Data (v : value)                 (* a value built from literals *)
| Inherited (member : string)      (* a member of Object.prototype *)
| Sent (timestamp : Date).         (* { status: 'sent', timestamp } *)

Inductive Event : Type :=
| server_connected (id : string) (server : Server)
| server_disconnected (id : string) (server : Server)
| message_event (serverId : string) (message : value).

Inductive SocketCall : Type :=
| ws_new (w : WebSocket)
| ws_send (w : WebSocket) (frame : Message)
| ws_close (w : WebSocket).

Inductive Task : Type := task_pingServers | task_updateStats.

(** The instance.  The first four fields are the ones the constructor
    assigns.  The last three record what the instance did to objects it does
    not own: the events passed to [this.emit], the calls made on sockets, and
    the intervals registered with [setInterval]. *)
Record MCPBridge : Type := {
  connections : Map Connection;
  servers : Map Server;
  isInitialized : bool;
  stats : Stats;
  emitted : list Event;
  socket_calls : list SocketCall;
  intervals : list (Z * Task)
}.


(** A frame that arrives on a socket, given by what [JSON.parse] makes of
    it. *)
Inductive Frame : Type :=
| parses_to (message : value)
| malformed.

(** The view [getConnections] builds of one connection. *)
Record ConnectionView : Type := {
  view_id : string;
  view_name : string;
  view_status : string;
  view_capabilities : list string;
  view_messageCount : Z;
  view_lastPing : Date
}.

(** ** Field updates *)

Definition set_connections (f : Map Connection -> Map Connection) (b : MCPBridge) : MCPBridge :=
  {| connections := f (connections b); servers := servers b;
     isInitialized := isInitialized b; stats := stats b;
     emitted := emitted b; socket_calls := socket_calls b;
     intervals := intervals b |}.

Definition set_servers (f : Map Server -> Map Server) (b : MCPBridge) : MCPBridge :=
  {| connections := connections b; servers := f (servers b);
     isInitialized := isInitialized b; stats := stats b;
     emitted := emitted b; socket_calls := socket_calls b;
     intervals := intervals b |}.

Definition set_isInitialized (v : bool) (b : MCPBridge) : MCPBridge :=
  {| connections := connections b; servers := servers b;
     isInitialized := v; stats := stats b;
     emitted := emitted b; socket_calls := socket_calls b;
     intervals := intervals b |}.

Definition set_stats (f : Stats -> Stats) (b : MCPBridge) : MCPBridge :=
  {| connections := connections b; servers := servers b;
     isInitialized := isInitialized b; stats := f (stats b);
     emitted := emitted b; socket_calls := socket_calls b;
     intervals := intervals b |}.

Definition emit (e : Event) (b : MCPBridge) : MCPBridge :=
  {| connections := connections b; servers := servers b;
     isInitialized := isInitialized b; stats := stats b;
     emitted := emitted b ++ [e]; socket_calls := socket_calls b;
     intervals := intervals b |}.

Definition call_socket (c : SocketCall) (b : MCPBridge) : MCPBridge :=
  {| connections := connections b; servers := servers b;
     isInitialized := isInitialized b; stats := stats b;
     emitted := emitted b; socket_calls := socket_calls b ++ [c];
     intervals := intervals b |}.

Definition setInterval (t : Task) (ms : Z) (b : MCPBridge) : MCPBridge :=
  {| connections := connections b; servers := servers b;
     isInitialized := isInitialized b; stats := stats b;
     emitted := emitted b; socket_calls := socket_calls b;
     intervals := intervals b ++ [(ms, t)] |}.

(** ** The methods of [MCPBridge] *)

Definition setupDefaultServers (b : MCPBridge) : MCPBridge :=
  let b1 :=
    set_servers (Map_set "demo-server"
      {| name := "Demo Server";
         url := "ws://localhost:3001/mcp";
         server_status := "simulated";
         capabilities := ["tools"; "resources"; "prompts"];
         tools :=
           [ {| tool_name := "calculate"; tool_description := "Perform calculations" |};
             {| tool_name := "weather"; tool_description := "Get weather information" |};
             {| tool_name := "translate"; tool_description := "Translate text" |} ] |}) b in
  let b2 :=
    set_servers (Map_set "ai-assistant"
      {| name := "AI Assistant";
         url := "ws://localhost:3002/mcp";
         server_status := "simulated";
         capabilities := ["prompts"; "completion"];
         tools :=
           [ {| tool_name := "chat"; tool_description := "AI chat interface" |};
             {| tool_name := "analyze"; tool_description := "Text analysis" |} ] |}) b1 in
  set_servers (Map_set "file-manager"
    {| name := "File Manager";
       url := "ws://localhost:3003/mcp";
       server_status := "simulated";
       capabilities := ["resources"; "file-operations"];
       tools :=
         [ {| tool_name := "read-file"; tool_description := "Read file contents" |};
           {| tool_name := "write-file"; tool_description := "Write file contents" |};
           {| tool_name := "list-files"; tool_description := "List directory contents" |} ] |}) b2.

(** [new MCPBridge()], constructed at time [now]. *)
Definition new_MCPBridge (now : Date) : MCPBridge :=
  setupDefaultServers
    {| connections := [];
       servers := [];
       isInitialized := false;
       stats := {| totalConnections := 0; activeConnections := 0;
                   messagesProcessed := 0; lastActivity := now |};
       emitted := [];
       socket_calls := [];
       intervals := [] |}.

(** [connectToServer(id, server)].  For a server that is not simulated the
    method only creates the socket; the connection is stored when the socket
    reports [open], see [on_open]. *)
Definition connectToServer (now : Date) (id : string) (server : Server)
    (b : MCPBridge) : Completion unit * MCPBridge :=
  if server_status server =? "simulated" then
    (Normal tt,
     emit (server_connected id server)
       (set_connections
          (Map_set id {| id := id; server := server; ws := None;
                         status := "connected"; lastPing := now;
                         messageCount := 0 |}) b))
  else
    match WebSocket_rejects (url server) with
    | Some reason =>
        (Throw (Error ("Failed to connect to " ++ name server ++ ": " ++ reason)), b)
    | None => (Normal tt, call_socket (ws_new {| ws_url := url server |}) b)
    end.

(** [handleMessage(serverId, data)]: a frame that does not parse is logged
    and dropped. *)
Definition handleMessage (now : Date) (serverId : string) (data : Frame)
    (b : MCPBridge) : MCPBridge :=
  match data with
  | malformed => b
  | parses_to message =>
      let b1 :=
        match Map_get serverId (connections b) with
        | Some connection =>
            set_stats
              (fun s => {| totalConnections := totalConnections s;
                           activeConnections := activeConnections s;
                           messagesProcessed := messagesProcessed s + 1;
                           lastActivity := now |})
              (set_connections
                 (Map_set serverId
                    {| id := id connection; server := server connection;
                       ws := ws connection; status := status connection;
                       lastPing := now;
                       messageCount := messageCount connection + 1 |}) b)
        | None => b
        end in
      emit (message_event serverId message) b1
  end.

(** [handleDisconnect(serverId)]. *)
Definition handleDisconnect (serverId : string) (b : MCPBridge) : MCPBridge :=
  match Map_get serverId (connections b) with
  | Some connection =>
      emit (server_disconnected serverId (server connection))
        (set_stats
           (fun s => {| totalConnections := totalConnections s;
                        activeConnections := activeConnections s - 1;
                        messagesProcessed := messagesProcessed s;
                        lastActivity := lastActivity s |})
           (set_connections
              (Map_set serverId
                 {| id := id connection; server := server connection;
                    ws := ws connection; status := "disconnected";
                    lastPing := lastPing connection;
                    messageCount := messageCount connection |}) b))
  | None => b
  end.

(** The handlers [connectToServer] attaches to the socket [w] it created for
    [id] and [server]. *)
Definition on_open (now : Date) (id : string) (server : Server) (w : WebSocket)
    (b : MCPBridge) : MCPBridge :=
  emit (server_connected id server)
    (set_connections
       (Map_set id {| id := id; server := server; ws := Some w;
                      status := "connected"; lastPing := now;
                      messageCount := 0 |}) b).

Definition on_message (now : Date) (id : string) (data : Frame) : MCPBridge -> MCPBridge :=
  handleMessage now id data.

Definition on_close (id : string) : MCPBridge -> MCPBridge := handleDisconnect id.

Definition on_error (id : string) : MCPBridge -> MCPBridge := handleDisconnect id.

(** [message.params?.name]: only an object can have the own property; no
    prototype of a JSON value defines [name]. *)
Definition params_name (message : Message) : value :=
  match params message with
  | VObj props =>
      match own_property "name" props with
      | Some v => v
      | None => VUndefined
      end
  | _ => VUndefined
  end.

(** [a || b] on values. *)
Definition or_else (a b : value) : value := if truthy a then a else b.

(** The object literal [responses] of [simulateResponse]; [text] is the
    template literal of its second entry, already evaluated. *)
Definition responses (text : string) : list (string * value) :=
  [ ("tools/list",
     VObj [("result",
       VObj [("tools", VArr
         [ VObj [("name", VStr "calculate");
                 ("description", VStr "Perform mathematical calculations")];
           VObj [("name", VStr "weather");
                 ("description", VStr "Get current weather information")];
           VObj [("name", VStr "translate");
                 ("description", VStr "Translate text between languages")] ])])]);
    ("tools/call",
     VObj [("result",
       VObj [("content", VArr
         [ VObj [("type", VStr "text"); ("text", VStr text)] ])])]);
    ("resources/list",
     VObj [("result",
       VObj [("resources", VArr
         [ VObj [("uri", VStr "file://demo.txt"); ("name", VStr "Demo File");
                 ("mimeType", VStr "text/plain")];
           VObj [("uri", VStr "http://example.com"); ("name", VStr "Example Website");
                 ("mimeType", VStr "text/html")] ])])]) ].

(** [{ result: { message: 'Demo response', status: 'success' } }] *)
Definition demo_response : value :=
  VObj [("result",
    VObj [("message", VStr "Demo response"); ("status", VStr "success")])].

(** [table[key]] on an object literal: the own property, else the member
    inherited from [Object.prototype], else [undefined]. *)
Definition Get (table : list (string * value)) (key : string) : option Response :=
  match own_property key table with
  | Some v => Some (Data v)
  | None => if inherited key then Some (Inherited key) else None
  end.

Definition Response_truthy (r : Response) : bool :=
  match r with
  | Data v => truthy v
  | Inherited _ => true
  | Sent _ => true
  end.

(** [simulateResponse(message)].  The literal is built first, which converts
    the tool name to a string; then the method is converted to a property
    key. *)
Definition simulateResponse (message : Message) : Completion Response :=
  tool <- ToString (or_else (params_name message) (VStr "unknown")) ;;
  let table := responses ("Tool executed successfully: " ++ tool) in
  key <- ToString (method message) ;;
  Normal
    match Get table key with
    | Some r => if Response_truthy r then r else Data demo_response
    | None => Data demo_response
    end.

(** [sendMessage(serverId, message)]; a rejected promise is [Throw]. *)
Definition sendMessage (now : Date) (serverId : string) (message : Message)
    (b : MCPBridge) : Completion Response * MCPBridge :=
  match Map_get serverId (connections b) with
  | None => (Throw (Error ("No connection to server: " ++ serverId)), b)
  | Some connection =>
      if negb (status connection =? "connected") then
        (Throw (Error ("Server " ++ serverId ++ " is not connected")), b)
      else if server_status (server connection) =? "simulated" then
        (simulateResponse message, b)
      else
        match ws connection with
        | Some w => (Normal (Sent now), call_socket (ws_send w message) b)
        | None => (Normal (Data VUndefined), b)
        end
  end.

Definition startPeriodicTasks (b : MCPBridge) : MCPBridge :=
  setInterval task_updateStats 10000 (setInterval task_pingServers 30000 b).

(** [pingServers()]: a failed ping is logged and the loop goes on. *)
Definition pingServers (now : Date) (b : MCPBridge) : MCPBridge :=
  fold_left
    (fun acc entry =>
       let '(id, connection) := entry in
       if status connection =? "connected"
       then snd (sendMessage now id {| method := VStr "ping"; params := VUndefined |} acc)
       else acc)
    (connections b) b.

(** [updateStats()].  [active] is the outcome of [Math.random() > 0.7] and
    [amount] the value of [Math.floor(Math.random() * 3)], one of 0, 1, 2. *)
Definition updateStats (now : Date) (active : bool) (amount : Z)
    (b : MCPBridge) : MCPBridge :=
  if active then
    set_stats
      (fun s => {| totalConnections := totalConnections s;
                   activeConnections := activeConnections s;
                   messagesProcessed := messagesProcessed s + amount;
                   lastActivity := now |}) b
  else b.

Definition getConnections (b : MCPBridge) : list ConnectionView :=
  map (fun conn =>
         {| view_id := id conn;
            view_name := name (server conn);
            view_status := status conn;
            view_capabilities := capabilities (server conn);
            view_messageCount := messageCount conn;
            view_lastPing := lastPing conn |})
      (Map_values (connections b)).

Definition getStats (b : MCPBridge) : Stats := stats b.

(** [close()]. *)
Definition close (b : MCPBridge) : MCPBridge :=
  set_connections Map_clear
    (fold_left
       (fun acc connection =>
          match ws connection with
          | Some w =>
              if status connection =? "connected"
              then call_socket (ws_close w) acc
              else acc
          | None => acc
          end)
       (Map_values (connections b)) b).

(** [initialize()]: one connect per registered server, counted when it does
    not throw. *)
Definition initialize (now : Date) (b : MCPBridge) : MCPBridge :=
  let connected :=
    fold_left
      (fun acc entry =>
         let '(id, server) := entry in
         match connectToServer now id server acc with
         | (Normal _, acc') =>
             set_stats
               (fun s => {| totalConnections := totalConnections s + 1;
                            activeConnections := activeConnections s + 1;
                            messagesProcessed := messagesProcessed s;
                            lastActivity := lastActivity s |}) acc'
         | (Throw _, acc') => acc'
         end)
      (servers b) b in
  startPeriodicTasks (set_isInitialized true connected).

End Bridge.

(** ** Vocabulary of the properties *)

Section Vocabulary.
Context {host : Host}.

(** The two errors [sendMessage] throws itself (lines 367 and 371).  Both are
    plain [Error] objects; the message tells them apart. *)
Definition UnknownEndpointError (serverId : string) : JsError :=
  Error ("No connection to server: " ++ serverId).

Definition NotConnectedError (serverId : string) : JsError :=
  Error ("Server " ++ serverId ++ " is not connected").

Definition is_connected (c : Connection) : bool := status c =? "connected".

Definition is_simulated (c : Connection) : bool :=
  server_status (server c) =? "simulated".

(** Number of connections whose status is [connected]. *)
Fixpoint count_connected (m : Map Connection) : Z :=
  match m with
  | [] => 0
  | (_, c) :: rest => (if is_connected c then 1 else 0) + count_connected rest
  end.

(** Sum of the per-connection message counters. *)
Fixpoint sum_messageCount (m : Map Connection) : Z :=
  match m with
  | [] => 0
  | (_, c) :: rest => messageCount c + sum_messageCount rest
  end.

Definition stats_in_sync (b : MCPBridge) : Prop :=
  activeConnections (getStats b) = count_connected (connections b) /\
  messagesProcessed (getStats b) = sum_messageCount (connections b).

(** [v[k]] for a value built from literals. *)
Definition property (k : string) (v : value) : value :=
  match v with
  | VObj props =>
      match own_property k props with
      | Some x => x
      | None => VUndefined
      end
  | _ => VUndefined
  end.

(** The names in [response.result.tools], when that is an array. *)
Definition tool_names (r : Response) : option (list value) :=
  match r with
  | Data v =>
      match property "tools" (property "result" v) with
      | VArr items => Some (map (property "name") items)
      | _ => None
      end
  | _ => None
  end.

(** The bridge of the running platform: constructed at time 0, initialized
    at time 1. *)
Definition platform : MCPBridge := initialize 1 (new_MCPBridge 0).

(** [send(id, "ping", {})] and [send(id, "tools/list", {})]. *)
Definition ping : Message := {| method := VStr "ping"; params := VObj [] |}.

Definition tools_list : Message := {| method := VStr "tools/list"; params := VObj [] |}.

(** The platform after one frame from the demo server, and after that
    server was disconnected. *)
Definition platform_after_frame : MCPBridge :=
  handleMessage 2 "demo-server" (parses_to VNull) platform.

Definition platform_after_disconnect : MCPBridge :=
  handleDisconnect "demo-server" platform.

(** The first default server, as [setupDefaultServers] registers it. *)
Definition demo_server : Server :=
  {| name := "Demo Server";
     url := "ws://localhost:3001/mcp";
     server_status := "simulated";
     capabilities := ["tools"; "resources"; "prompts"];
     tools :=
       [ {| tool_name := "calculate"; tool_description := "Perform calculations" |};
         {| tool_name := "weather"; tool_description := "Get weather information" |};
         {| tool_name := "translate"; tool_description := "Translate text" |} ] |}.

(** The calls a client or the event loop makes on a bridge. *)
Inductive Call : Type :=
| call_initialize (now : Date)
| call_sendMessage (now : Date) (serverId : string) (message : Message)
| call_handleMessage (now : Date) (serverId : string) (data : Frame)
| call_handleDisconnect (serverId : string)
| call_updateStats (now : Date) (active : bool) (amount : Z)
| call_pingServers (now : Date)
| call_close.

Definition perform (c : Call) (b : MCPBridge) : MCPBridge :=
  match c with
  | call_initialize now => initialize now b
  | call_sendMessage now serverId message => snd (sendMessage now serverId message b)
  | call_handleMessage now serverId data => handleMessage now serverId data b
  | call_handleDisconnect serverId => handleDisconnect serverId b
  | call_updateStats now active amount => updateStats now active amount b
  | call_pingServers now => pingServers now b
  | call_close => close b
  end.

Definition run (calls : list Call) (b : MCPBridge) : MCPBridge :=
  fold_left (fun acc c => perform c acc) calls b.

(** The synthetic activity a call adds to [messagesProcessed]. *)
Definition synthetic (c : Call) : Z :=
  match c with
  | call_updateStats _ true amount => amount
  | _ => 0
  end.

(** A bridge in service: constructed, initialized once, then used through
    [sendMessage], [pingServers], inbound frames, the periodic stats update,
    and [handleDisconnect] for a connection that is connected.  The second
    index is the synthetic activity added so far. *)
Inductive in_service : MCPBridge -> Z -> Prop :=
| service_initialize (t0 now : Date) :
    in_service (initialize now (new_MCPBridge t0)) 0
| service_sendMessage b g now serverId message :
    in_service b g ->
    in_service (snd (sendMessage now serverId message b)) g
| service_pingServers b g now :
    in_service b g ->
    in_service (pingServers now b) g
| service_handleMessage b g now serverId data :
    in_service b g ->
    in_service (handleMessage now serverId data b) g
| service_handleDisconnect b g serverId c :
    in_service b g ->
    Map_get serverId (connections b) = Some c ->
    is_connected c = true ->
    in_service (handleDisconnect serverId b) g
| service_updateStats b g now active amount :
    in_service b g ->
    in_service (updateStats now active amount b)
               (g + synthetic (call_updateStats now active amount)).

(** *** The sentences of the specification that the code does not satisfy,
    as they are written *)

(** Every successful [sendMessage] on a connected endpoint adds one to that
    connection's counter and sets its last activity. *)
Definition send_counts_as_activity : Prop :=
  forall now serverId message b c r b',
    Map_get serverId (connections b) = Some c ->
    is_connected c = true ->
    sendMessage now serverId message b = (Normal r, b') ->
    exists c',
      Map_get serverId (connections b') = Some c' /\
      messageCount c' = (messageCount c + 1)%Z /\
      lastPing c' = now.

(** After [close()], every registered endpoint is reported by
    [getConnections()] with status [closed] or [disconnected], and no
    connection is counted active. *)
Definition close_marks_closed (b : MCPBridge) : Prop :=
  (forall serverId s,
     Map_get serverId (servers b) = Some s ->
     exists v,
       In v (getConnections (close b)) /\
       view_id v = serverId /\
       (view_status v = "closed" \/ view_status v = "disconnected")) /\
  activeConnections (getStats (close b)) = 0%Z.

(** The stats agree with the connection set after every sequence of bridge
    operations on a new bridge. *)
Definition stats_never_drift : Prop :=
  forall t0 calls, stats_in_sync (run calls (new_MCPBridge t0)).

(** Connecting an endpoint whose connection is connected changes nothing,
    and keeps its message counter. *)
Definition connect_is_noop : Prop :=
  forall now serverId server b c,
    Map_get serverId (connections b) = Some c ->
    is_connected c = true ->
    snd (connectToServer now serverId server b) = b /\
    exists c',
      Map_get serverId (connections (snd (connectToServer now serverId server b))) = Some c' /\
      messageCount c' = messageCount c.

(** For a method outside the three of the table, the simulated answer is the
    placeholder. *)
Definition other_methods_get_placeholder : Prop :=
  forall now serverId b c m p,
    Map_get serverId (connections b) = Some c ->
    is_connected c = true ->
    is_simulated c = true ->
    m <> "tools/list" -> m <> "tools/call" -> m <> "resources/list" ->
    fst (sendMessage now serverId {| method := VStr m; params := p |} b)
    = Normal (Data demo_response).

End Vocabulary.

(** ** A host to run the methods on

    Numbers are the integers, read as the doubles that represent them exactly
    and print in decimal; the socket constructor accepts the addresses with a
    [ws:] or [wss:] scheme. *)

#[export] Instance integer_host : Host := {|
  Number := Z;
  Number_toString := fun z => DecimalString.NilZero.string_of_int (Z.to_int z);
  Number_isFalsy := Z.eqb 0;
  WebSocket_rejects := fun address =>
    if (prefix "ws://" address || prefix "wss://" address)%bool then None
    else Some ("Invalid URL: " ++ address)
|}.


(** ** Further vocabulary of the bridge *)

Section Reach.
Context {host : Host}.

(** [connectToServer] returns for this server: it is simulated, or the
    socket constructor accepts its address. *)
Definition connects (s : Server) : bool :=
  (server_status s =? "simulated")
  || match WebSocket_rejects (url s) with
     | None => true
     | Some _ => false
     end.

Definition count_connects (m : Map Server) : Z :=
  Z.of_nat (List.length (filter (fun entry => connects (snd entry)) m)).

(** The socket of a connection that [sendMessage] writes to. *)
Definition live_socket (c : Connection) : option WebSocket :=
  if is_connected c && negb (is_simulated c) then ws c else None.

(** The message of the heartbeat, [{ method: 'ping' }]. *)
Definition heartbeat : Message := {| method := VStr "ping"; params := VUndefined |}.

Definition heartbeat_frames (m : Map Connection) : list SocketCall :=
  flat_map
    (fun entry =>
       match live_socket (snd entry) with
       | Some w => [ws_send w heartbeat]
       | None => []
       end) m.

(** The sockets [close()] closes. *)
Definition closing_calls (m : Map Connection) : list SocketCall :=
  flat_map
    (fun entry =>
       match ws (snd entry) with
       | Some w => if is_connected (snd entry) then [ws_close w] else []
       | None => []
       end) m.

(** A run of parseable frames from one server. *)
Definition receive_all (now : Date) (serverId : string) (frames : list value)
    (b : MCPBridge) : MCPBridge :=
  fold_left (fun acc message => handleMessage now serverId (parses_to message) acc)
            frames b.

(** The error of a conversion to a string that fails. *)
Definition conversion_error : JsError :=
  TypeError "Cannot convert object to primitive value".

(** Values that are neither arrays nor objects. *)
Definition primitive (v : value) : bool :=
  match v with
  | VArr _ | VObj _ => false
  | _ => true
  end.

(** A connection as [connectToServer] stores it for a simulated server. *)
Definition freshly_connected (now : Date) (c : Connection) : Prop :=
  status c = "connected" /\ messageCount c = 0%Z /\ lastPing c = now /\ ws c = None.

(** What a connection map looks like when the bridge made it. *)
Definition entry_ok (entry : string * Connection) : Prop :=
  id (snd entry) = fst entry /\
  (status (snd entry) = "connected" \/ status (snd entry) = "disconnected") /\
  (0 <= messageCount (snd entry))%Z.

Definition tidy (m : Map Connection) : Prop :=
  NoDup (map fst m) /\ Forall entry_ok m.

(** The states of a bridge: constructed, then driven by the calls of
    [perform], by direct calls of [connectToServer], and by sockets that
    report [open]. *)
Inductive reachable : MCPBridge -> Prop :=
| reach_new (t0 : Date) : reachable (new_MCPBridge t0)
| reach_call (b : MCPBridge) (c : Call) :
    reachable b -> reachable (perform c b)
| reach_connect (b : MCPBridge) (now : Date) (serverId : string) (s : Server) :
    reachable b -> reachable (snd (connectToServer now serverId s b))
| reach_open (b : MCPBridge) (now : Date) (serverId : string) (s : Server)
    (w : WebSocket) :
    reachable b -> reachable (on_open now serverId s w b).

End Reach.

(** A server that is not simulated, and the socket the bridge opens for it. *)
Definition live_server : Server :=
  {| name := "Live Server";
     url := "ws://localhost:4000/mcp";
     server_status := "live";
     capabilities := ["tools"];
     tools := [] |}.

Definition live_socket_handle : WebSocket := {| ws_url := "ws://localhost:4000/mcp" |}.

(** The platform after that server was connected and its socket opened. *)
Definition platform_with_live : MCPBridge :=
  on_open 3 "live" live_server live_socket_handle
    (snd (connectToServer 2 "live" live_server platform)).


(** ** The callers of the bridge: the route [POST /mcp/call]
    (src/api/routes.js) and the socket handler [handleMCPCall]
    (src/web/controller.js)

    The database manager is not part of the sources at hand; its
    [logActivity] is the field of the class [Persistence].  The call returns
    or throws, and leaves the database in a new state. *)

Section Callers.
Context {host : Host}.

(** The [data] argument of an [mcp-call] activity,
    [{ serverId, method, params, result }]. *)
Record CallRecord : Type := {
  logged_serverId : value;
  logged_method : value;
  logged_params : value;
  logged_result : Response
}.

Class Persistence : Type := {
  Database : Type;
  logActivity :
    string -> string -> string -> CallRecord -> Database -> Completion unit * Database
}.

Context {persistence : Persistence}.

Definition error_message (e : JsError) : string :=
  match e with
  | Error m => m
  | TypeError m => m
  end.

(** [sendMessage] with whatever the request gave as server id.  The keys of
    the connection map are strings, so [connections.get] finds nothing for
    any other value, and the error message converts the id to a string. *)
Definition sendMessage_any (now : Date) (serverId : value) (message : Message)
    (b : MCPBridge) : Completion Response * MCPBridge :=
  match serverId with
  | VStr s => sendMessage now s message b
  | _ =>
      (text <- ToString serverId ;;
       Throw (Error ("No connection to server: " ++ text)), b)
  end.

(** [const { serverId, method, params = {} } = source]: the three values, or
    the [TypeError] of destructuring [undefined] or [null]. *)
Definition destructure_call (source_text : string) (source : value)
    : Completion (value * value * value) :=
  match source with
  | VUndefined =>
      Throw (TypeError ("Cannot destructure property 'serverId' of '" ++ source_text
                        ++ "' as it is undefined."))
  | VNull =>
      Throw (TypeError ("Cannot destructure property 'serverId' of '" ++ source_text
                        ++ "' as it is null."))
  | _ =>
      Normal (property "serverId" source,
              property "method" source,
              match property "params" source with
              | VUndefined => VObj []
              | p => p
              end)
  end.

(** [req.app.locals], as far as the route reads it. *)
Record Locals : Type := {
  mcpBridge : option MCPBridge;
  database : option Database
}.

Inductive ReplyBody : Type :=
| error_body (error : string)            (* { error } *)
| result_body (result : Response).       (* { result } *)

(** [res.status(code).json(body)]; [res.json(body)] answers 200. *)
Record Reply : Type := { code : Z; body : ReplyBody }.

(** The handler of [POST /mcp/call]; [request_body] is [req.body]. *)
Definition post_mcp_call (now : Date) (request_body : value) (app : Locals)
    : Reply * Locals :=
  match mcpBridge app with
  | None => ({| code := 503; body := error_body "MCP Bridge not available" |}, app)
  | Some bridge =>
      match destructure_call "req.body" request_body with
      | Throw e => ({| code := 500; body := error_body (error_message e) |}, app)
      | Normal (serverId, method, params) =>
          if negb (truthy serverId) || negb (truthy method) then
            ({| code := 400; body := error_body "serverId and method are required" |}, app)
          else
            match sendMessage_any now serverId
                    {| method := method; params := params |} bridge with
            | (Throw e, bridge') =>
                ({| code := 500; body := error_body (error_message e) |},
                 {| mcpBridge := Some bridge'; database := database app |})
            | (Normal result, bridge') =>
                match database app with
                | None =>
                    ({| code := 200; body := result_body result |},
                     {| mcpBridge := Some bridge'; database := None |})
                | Some db =>
                    match ToString method with
                    | Throw e =>
                        ({| code := 500; body := error_body (error_message e) |},
                         {| mcpBridge := Some bridge'; database := Some db |})
                    | Normal text =>
                        match logActivity "mcp-call" "api" ("MCP call: " ++ text)
                                {| logged_serverId := serverId;
                                   logged_method := method;
                                   logged_params := params;
                                   logged_result := result |} db with
                        | (Throw e, db') =>
                            ({| code := 500; body := error_body (error_message e) |},
                             {| mcpBridge := Some bridge'; database := Some db' |})
                        | (Normal _, db') =>
                            ({| code := 200; body := result_body result |},
                             {| mcpBridge := Some bridge'; database := Some db' |})
                        end
                    end
                end
            end
      end
  end.

(** What [handleMCPCall] emits on the socket. *)
Inductive SocketEmit : Type :=
| mcp_result (serverId method : value) (result : Response)
| socket_error (message error : string).

(** The fields of the [WebController] that [handleMCPCall] uses. *)
Record Controller : Type := {
  controller_mcpBridge : MCPBridge;
  controller_database : Database
}.

(** [handleMCPCall(socket, data)]. *)
Definition handleMCPCall (now : Date) (data : value) (ctl : Controller)
    : SocketEmit * Controller :=
  match destructure_call "data" data with
  | Throw e => (socket_error "MCP call failed" (error_message e), ctl)
  | Normal (serverId, method, params) =>
      match sendMessage_any now serverId
              {| method := method; params := params |} (controller_mcpBridge ctl) with
      | (Throw e, bridge') =>
          (socket_error "MCP call failed" (error_message e),
           {| controller_mcpBridge := bridge';
              controller_database := controller_database ctl |})
      | (Normal result, bridge') =>
          match ToString method with
          | Throw e =>
              (socket_error "MCP call failed" (error_message e),
               {| controller_mcpBridge := bridge';
                  controller_database := controller_database ctl |})
          | Normal text =>
              match logActivity "mcp-call" "web-interface" ("MCP call: " ++ text)
                      {| logged_serverId := serverId;
                         logged_method := method;
                         logged_params := params;
                         logged_result := result |} (controller_database ctl) with
              | (Throw e, db') =>
                  (socket_error "MCP call failed" (error_message e),
                   {| controller_mcpBridge := bridge'; controller_database := db' |})
              | (Normal _, db') =>
                  (mcp_result serverId method result,
                   {| controller_mcpBridge := bridge'; controller_database := db' |})
              end
          end
      end
  end.

End Callers.

(** A database that keeps the activities in a list and never fails. *)
#[export] Instance activity_list : Persistence (host := integer_host) := {|
  Database := list (string * string * string * CallRecord);
  logActivity := fun type source text data db =>
    (Normal tt, (db ++ [(type, source, text, data)])%list)
|}.

Definition no_activity : @Database integer_host activity_list := [].


(** ** The Discord bot: [class DiscordBot] (src/bot/discord-bot.js, first
    half of the file)

    The gateway client and the messages belong to discord.js; the model
    keeps of them what the class reads and records the calls the class
    makes: the logins, [destroy], and every [message.reply].
    [String.prototype.toLowerCase] is the field of the class [Text]. *)

Class Text : Type := { toLowerCase : string -> string }.




Module Bot.

Record Stats : Type := {
  messagesProcessed : Z;
  commandsExecuted : Z;
  serversConnected : Z;
  startTime : Date
}.

(** The gateway client: the tokens it was asked to log in with, and whether
    it was destroyed. *)
Record Client : Type := { logins : list string; destroyed : bool }.

Record Field : Type := { field_name : string; field_value : string; inline : bool }.

Record Embed : Type := {
  color : Z;
  title : string;
  description : option string;
  fields : list Field;
  timestamp : Date;
  footer : option string
}.

Inductive Reply : Type :=
| text_reply (content : string)
| embed_reply (embed : Embed).

(** A message of a channel, as far as the bot reads it. *)
Record Message : Type := {
  author_bot : bool;
  content : string;
  createdTimestamp : Date
}.

(** The instance.  [ready_listener] is the listener registered with
    [client.once(Events.ClientReady, ...)], [replies] are the replies sent,
    [demo_intervals] counts the intervals [setupDemoMode] started. *)
Record DiscordBot : Type := {
  token : option string;
  demoMode : bool;
  isReady : bool;
  stats : Stats;
  client : option Client;
  ready_listener : bool;
  replies : list Reply;
  demo_intervals : nat
}.


Definition set_stats (f : Stats -> Stats) (b : DiscordBot) : DiscordBot :=
  {| token := token b; demoMode := demoMode b; isReady := isReady b;
     stats := f (stats b); client := client b;
     ready_listener := ready_listener b; replies := replies b;
     demo_intervals := demo_intervals b |}.


Definition set_client (c : option Client) (b : DiscordBot) : DiscordBot :=
  {| token := token b; demoMode := demoMode b; isReady := isReady b;
     stats := stats b; client := c;
     ready_listener := ready_listener b; replies := replies b;
     demo_intervals := demo_intervals b |}.



(** The callback of the interval of [setupDemoMode]: [processed] is
    [Math.floor(Math.random() * 5)], [executed] is [Math.random() > 0.7]. *)
Definition demo_tick (processed : Z) (executed : bool) (b : DiscordBot) : DiscordBot :=
  set_stats
    (fun s => {| messagesProcessed := messagesProcessed s + processed;
                 commandsExecuted :=
                   if executed then commandsExecuted s + 1 else commandsExecuted s;
                 serversConnected := serversConnected s;
                 startTime := startTime s |}) b.



Section Commands.
Context {text : Text}.






















End Commands.


(** [stop()] *)
Definition stop (b : DiscordBot) : DiscordBot :=
  match client b with
  | Some c =>
      if negb (demoMode b)
      then set_client (Some {| logins := logins c; destroyed := true |}) b
      else b
  | None => b
  end.

Definition getStats (b : DiscordBot) : Stats := stats b.


End Bot.

(** A [Text] for commands written in ASCII: the letters A to Z are
    lowered, every other byte is kept. *)
Definition lower_ascii (c : Ascii.ascii) : Ascii.ascii :=
  let n := Ascii.nat_of_ascii c in
  if ((65 <=? n) && (n <=? 90))%nat then Ascii.ascii_of_nat (n + 32) else c.

Fixpoint lower_string (s : string) : string :=
  match s with
  | EmptyString => EmptyString
  | String c rest => String (lower_ascii c) (lower_string rest)
  end.

#[export] Instance ascii_text : Text := {| toLowerCase := lower_string |}.


(** * Properties *)

Section Properties.
Context {host : Host}.

(** ** The map *)

Lemma Map_get_set_same {V} (k : string) (v : V) (m : Map V) :
  Map_get k (Map_set k v m) = Some v.
Proof.
  induction m as [|[k' v'] rest IH]; simpl.
  - now rewrite String.eqb_refl.
  - destruct (k =? k') eqn:E; simpl; rewrite E; auto.
Qed.

Lemma Map_get_set_other {V} (k other : string) (v : V) (m : Map V) :
  other <> k -> Map_get other (Map_set k v m) = Map_get other m.
Proof.
  intros Hne. apply String.eqb_neq in Hne.
  induction m as [|[k' v'] rest IH]; simpl.
  - now rewrite Hne.
  - destruct (k =? k') eqn:E; simpl.
    + apply String.eqb_eq in E. subst k'. now rewrite Hne.
    + now rewrite IH.
Qed.

Lemma Map_set_twice {V} (k : string) (v : V) (m : Map V) :
  Map_set k v (Map_set k v m) = Map_set k v m.
Proof.
  induction m as [|[k' v'] rest IH]; simpl.
  - now rewrite String.eqb_refl.
  - destruct (k =? k') eqn:E; simpl; rewrite E; congruence.
Qed.

Lemma count_connected_set (k : string) (c c' : Connection) (m : Map Connection) :
  Map_get k m = Some c ->
  count_connected (Map_set k c' m)
  = (count_connected m - (if is_connected c then 1 else 0)
     + (if is_connected c' then 1 else 0))%Z.
Proof.
  induction m as [|[k0 c0] rest IH]; simpl; intros Hget.
  - discriminate.
  - destruct (k =? k0); simpl.
    + injection Hget as ->. lia.
    + rewrite (IH Hget). lia.
Qed.

Lemma sum_messageCount_set (k : string) (c c' : Connection) (m : Map Connection) :
  Map_get k m = Some c ->
  sum_messageCount (Map_set k c' m)
  = (sum_messageCount m - messageCount c + messageCount c')%Z.
Proof.
  induction m as [|[k0 c0] rest IH]; simpl; intros Hget.
  - discriminate.
  - destruct (k =? k0); simpl.
    + injection Hget as ->. lia.
    + rewrite (IH Hget). lia.
Qed.

(** ** What [sendMessage] touches *)

Lemma sendMessage_keeps (now : Date) (serverId : string) (message : Message)
    (b : MCPBridge) :
  connections (snd (sendMessage now serverId message b)) = connections b /\
  stats (snd (sendMessage now serverId message b)) = stats b /\
  emitted (snd (sendMessage now serverId message b)) = emitted b.
Proof.
  unfold sendMessage.
  destruct (Map_get serverId (connections b)) as [c|]; simpl; auto.
  destruct (negb (status c =? "connected")); simpl; auto.
  destruct (server_status (server c) =? "simulated"); simpl; auto.
  destruct (ws c); simpl; auto.
Qed.

Lemma ping_loop_keeps (now : Date) (entries : Map Connection) (b : MCPBridge) :
  let after :=
    fold_left
      (fun acc entry =>
         let '(id, connection) := entry in
         if status connection =? "connected"
         then snd (sendMessage now id {| method := VStr "ping"; params := VUndefined |} acc)
         else acc)
      entries b in
  connections after = connections b /\ stats after = stats b.
Proof.
  revert b.
  induction entries as [|[k c] rest IH]; intros b; simpl; auto.
  destruct (status c =? "connected").
  - destruct (IH (snd (sendMessage now k
                 {| method := VStr "ping"; params := VUndefined |} b))) as [Hc Hs].
    simpl in Hc, Hs. rewrite Hc, Hs.
    destruct (sendMessage_keeps now k
                {| method := VStr "ping"; params := VUndefined |} b) as (H1 & H2 & _).
    auto.
  - apply IH.
Qed.

Lemma pingServers_keeps (now : Date) (b : MCPBridge) :
  connections (pingServers now b) = connections b /\
  stats (pingServers now b) = stats b.
Proof. unfold pingServers. apply ping_loop_keeps. Qed.

Lemma sendMessage_simulated (now : Date) (serverId : string) (message : Message)
    (b : MCPBridge) (c : Connection) :
  Map_get serverId (connections b) = Some c ->
  is_connected c = true ->
  is_simulated c = true ->
  sendMessage now serverId message b = (simulateResponse message, b).
Proof.
  unfold is_connected, is_simulated, sendMessage.
  intros -> -> ->. reflexivity.
Qed.

(** ** Calls that are refused *)

(** C1.  [sendMessage] for a server id that is not a key of the connection
    map throws the unknown-endpoint error, and the call changes nothing: the
    object [getStats()] returns, the view [getConnections()] gives, and every
    connection are as before. *)
Theorem sendMessage_unknown_endpoint (now : Date) (serverId : string)
    (message : Message) (b : MCPBridge) :
  Map_get serverId (connections b) = None ->
  fst (sendMessage now serverId message b) = Throw (UnknownEndpointError serverId) /\
  getStats (snd (sendMessage now serverId message b)) = getStats b /\
  getConnections (snd (sendMessage now serverId message b)) = getConnections b /\
  snd (sendMessage now serverId message b) = b.
Proof.
  intros Habsent. unfold sendMessage. rewrite Habsent. simpl. auto.
Qed.

Lemma errors_distinct (serverId other : string) :
  NotConnectedError serverId <> UnknownEndpointError other.
Proof.
  unfold NotConnectedError, UnknownEndpointError. simpl. intros H.
  injection H as H. discriminate H.
Qed.

(** C6.  [sendMessage] for a server id whose connection exists but is not in
    [connected] state throws the not-connected error, which is never the
    unknown-endpoint error of any id, and the call changes nothing. *)
Theorem sendMessage_not_connected (now : Date) (serverId : string)
    (message : Message) (b : MCPBridge) (c : Connection) :
  Map_get serverId (connections b) = Some c ->
  is_connected c = false ->
  fst (sendMessage now serverId message b) = Throw (NotConnectedError serverId) /\
  (forall other, NotConnectedError serverId <> UnknownEndpointError other) /\
  Map_get serverId (connections (snd (sendMessage now serverId message b))) = Some c /\
  snd (sendMessage now serverId message b) = b.
Proof.
  unfold is_connected. intros Hget Hstatus.
  unfold sendMessage. rewrite Hget, Hstatus. simpl.
  repeat split; auto using errors_distinct.
Qed.

(** C10.  [close()] empties the connection map, so afterwards [sendMessage]
    throws the unknown-endpoint error for every server id, whatever was
    registered and connected before. *)
Theorem sendMessage_after_close (now : Date) (serverId : string)
    (message : Message) (b : MCPBridge) :
  connections (close b) = [] /\
  sendMessage now serverId message (close b)
  = (Throw (UnknownEndpointError serverId), close b).
Proof.
  split; [reflexivity|].
  unfold sendMessage. reflexivity.
Qed.

(** ** Simulated answers *)

(** C2.  On a simulated endpoint in [connected] state, [tools/list] with
    empty parameters returns a result whose tools are named exactly
    calculate, weather and translate; the call leaves the bridge as it was,
    so a second call, at any time, returns the same. *)
Theorem tools_list_three_tools (now : Date) (serverId : string)
    (b : MCPBridge) (c : Connection) :
  Map_get serverId (connections b) = Some c ->
  is_connected c = true ->
  is_simulated c = true ->
  exists r,
    sendMessage now serverId tools_list b = (Normal r, b) /\
    tool_names r = Some [VStr "calculate"; VStr "weather"; VStr "translate"] /\
    forall later,
      sendMessage later serverId tools_list
        (snd (sendMessage now serverId tools_list b))
      = (Normal r, b).
Proof.
  intros Hget Hconn Hsim.
  pose proof (fun t => sendMessage_simulated t serverId tools_list b c Hget Hconn Hsim) as Hsend.
  eexists. split; [|split].
  - rewrite Hsend. reflexivity.
  - reflexivity.
  - intros later. rewrite (Hsend now). simpl. rewrite Hsend. reflexivity.
Qed.

(** C9.  On simulated connected endpoints the outcome of [sendMessage] is a
    function of the message alone: two endpoints, two bridge states and two
    times give the same outcome, the one [simulateResponse] computes. *)
Theorem simulated_outcome_depends_on_message_only
    (now1 now2 : Date) (id1 id2 : string) (b1 b2 : MCPBridge)
    (c1 c2 : Connection) (message : Message) :
  Map_get id1 (connections b1) = Some c1 ->
  is_connected c1 = true -> is_simulated c1 = true ->
  Map_get id2 (connections b2) = Some c2 ->
  is_connected c2 = true -> is_simulated c2 = true ->
  fst (sendMessage now1 id1 message b1) = fst (sendMessage now2 id2 message b2) /\
  fst (sendMessage now1 id1 message b1) = simulateResponse message.
Proof.
  intros G1 C1 S1 G2 C2 S2.
  rewrite (sendMessage_simulated now1 id1 message b1 c1 G1 C1 S1).
  rewrite (sendMessage_simulated now2 id2 message b2 c2 G2 C2 S2).
  auto.
Qed.

(** The table of [simulateResponse], read at a method name. *)

Lemma Get_other_method (text m : string) :
  m <> "tools/list" -> m <> "tools/call" -> m <> "resources/list" ->
  Get (responses text) m = if inherited m then Some (Inherited m) else None.
Proof.
  intros H1 H2 H3. unfold Get, responses. simpl.
  apply String.eqb_neq in H1, H2, H3. now rewrite H1, H2, H3.
Qed.

(** A method name that is neither in the table nor a member of
    [Object.prototype] gets the placeholder, provided the tool name
    converts to a string. *)
Lemma simulateResponse_plain_method (m tool : string) (p : value) :
  m <> "tools/list" -> m <> "tools/call" -> m <> "resources/list" ->
  inherited m = false ->
  ToString (or_else (params_name {| method := VStr m; params := p |}) (VStr "unknown"))
  = Normal tool ->
  simulateResponse {| method := VStr m; params := p |} = Normal (Data demo_response).
Proof.
  intros H1 H2 H3 Hplain Htool. unfold simulateResponse.
  rewrite Htool. simpl bindC. cbv beta. simpl method. simpl ToString. simpl bindC.
  rewrite (Get_other_method _ m H1 H2 H3), Hplain. reflexivity.
Qed.

(** A method name that [Object.prototype] defines gets that member. *)
Lemma simulateResponse_inherited_method (m tool : string) (p : value) :
  inherited m = true ->
  ToString (or_else (params_name {| method := VStr m; params := p |}) (VStr "unknown"))
  = Normal tool ->
  simulateResponse {| method := VStr m; params := p |} = Normal (Inherited m).
Proof.
  intros Hin Htool. unfold simulateResponse.
  rewrite Htool. simpl bindC. cbv beta. simpl method. simpl ToString. simpl bindC.
  assert (Hne : m <> "tools/list" /\ m <> "tools/call" /\ m <> "resources/list").
  { repeat split; intros ->; discriminate Hin. }
  destruct Hne as (H1 & H2 & H3).
  rewrite (Get_other_method _ m H1 H2 H3), Hin. reflexivity.
Qed.

(** [tools/call] with a non-empty string as tool name. *)
Lemma simulateResponse_tools_call (tool : string) (rest : list (string * value)) :
  tool <> "" ->
  simulateResponse
    {| method := VStr "tools/call"; params := VObj (("name", VStr tool) :: rest) |}
  = Normal (Data (VObj [("result", VObj [("content", VArr
      [ VObj [("type", VStr "text");
              ("text", VStr ("Tool executed successfully: " ++ tool))] ])])])).
Proof.
  intros Hne. apply String.eqb_neq in Hne.
  unfold simulateResponse, params_name, or_else. simpl.
  rewrite Hne. reflexivity.
Qed.

(** ** Counters and timestamps *)

Lemma handleMessage_known (now : Date) (serverId : string) (message : value)
    (b : MCPBridge) (c : Connection) :
  Map_get serverId (connections b) = Some c ->
  connections (handleMessage now serverId (parses_to message) b)
  = Map_set serverId
      {| id := id c; server := server c; ws := ws c; status := status c;
         lastPing := now; messageCount := messageCount c + 1 |}
      (connections b) /\
  messagesProcessed (stats (handleMessage now serverId (parses_to message) b))
  = (messagesProcessed (stats b) + 1)%Z /\
  activeConnections (stats (handleMessage now serverId (parses_to message) b))
  = activeConnections (stats b).
Proof.
  intros Hget. unfold handleMessage. rewrite Hget. simpl. auto.
Qed.

(** C3, as amended.  On a connected endpoint a successful [sendMessage]
    leaves the connection map, hence every message counter and every
    last-activity timestamp, and the stats as they were.  It is a received
    frame that counts: [handleMessage] with a frame that parses adds one to
    the connection's message counter and sets its last activity to the
    current time. *)
Theorem send_keeps_counters_receive_counts (now : Date) (serverId : string)
    (b : MCPBridge) (c : Connection) :
  Map_get serverId (connections b) = Some c ->
  is_connected c = true ->
  (forall message r b',
     sendMessage now serverId message b = (Normal r, b') ->
     connections b' = connections b /\ getStats b' = getStats b) /\
  (forall message,
     exists c',
       Map_get serverId
         (connections (handleMessage now serverId (parses_to message) b)) = Some c' /\
       messageCount c' = (messageCount c + 1)%Z /\
       lastPing c' = now /\
       status c' = status c).
Proof.
  intros Hget Hconn. split.
  - intros message r b' Hsend.
    destruct (sendMessage_keeps now serverId message b) as (Hc & Hs & _).
    rewrite Hsend in Hc, Hs. simpl in Hc, Hs. unfold getStats. auto.
  - intros message.
    destruct (handleMessage_known now serverId message b c Hget) as (Hc & _).
    rewrite Hc, Map_get_set_same. eexists. split; [reflexivity|]. simpl. auto.
Qed.

(** ** Closing *)

(** C4, as amended.  After [close()], [getConnections()] is the empty
    list: no endpoint is reported, under any status. *)
Theorem close_reports_no_connection (b : MCPBridge) :
  getConnections (close b) = [].
Proof. reflexivity. Qed.

(** ** Connecting *)

(** C8, as amended.  [connectToServer] for a simulated server always stores
    a fresh connection under the id: in [connected] state, with message
    counter 0 and last activity now, whatever connection was there.  The
    other connections and the stats are untouched, and a second call at the
    same time leaves the map as the first call made it. *)
Theorem connect_simulated_replaces (now : Date) (serverId : string)
    (server : Server) (b : MCPBridge) :
  server_status server = "simulated" ->
  let b' := snd (connectToServer now serverId server b) in
  fst (connectToServer now serverId server b) = Normal tt /\
  Map_get serverId (connections b')
  = Some {| id := serverId; server := server; ws := None;
            status := "connected"; lastPing := now; messageCount := 0 |} /\
  (forall other, other <> serverId ->
     Map_get other (connections b') = Map_get other (connections b)) /\
  getStats b' = getStats b /\
  connections (snd (connectToServer now serverId server b')) = connections b'.
Proof.
  intros Hsim. unfold connectToServer. rewrite Hsim. simpl.
  repeat split.
  - apply Map_get_set_same.
  - intros other Hne. now apply Map_get_set_other.
  - apply Map_set_twice.
Qed.

(** ** The stats and the connection set *)

Lemma handleDisconnect_known (serverId : string) (b : MCPBridge) (c : Connection) :
  Map_get serverId (connections b) = Some c ->
  connections (handleDisconnect serverId b)
  = Map_set serverId
      {| id := id c; server := server c; ws := ws c; status := "disconnected";
         lastPing := lastPing c; messageCount := messageCount c |}
      (connections b) /\
  activeConnections (stats (handleDisconnect serverId b))
  = (activeConnections (stats b) - 1)%Z /\
  messagesProcessed (stats (handleDisconnect serverId b))
  = messagesProcessed (stats b).
Proof.
  intros Hget. unfold handleDisconnect. rewrite Hget. simpl. auto.
Qed.

Lemma handleMessage_unknown (now : Date) (serverId : string) (data : Frame)
    (b : MCPBridge) :
  Map_get serverId (connections b) = None ->
  connections (handleMessage now serverId data b) = connections b /\
  stats (handleMessage now serverId data b) = stats b.
Proof.
  intros Hget. unfold handleMessage. destruct data; [rewrite Hget|]; simpl; auto.
Qed.

(** C5, as amended.  On a bridge in service (constructed, initialized once,
    then used through [sendMessage], [pingServers], inbound frames, the
    periodic stats update, and [handleDisconnect] for a connection that is
    connected), [activeConnections] is the number of connected connections,
    and [messagesProcessed] is the sum of the per-connection message
    counters plus the synthetic activity the periodic updates have added. *)
Theorem stats_in_service (b : MCPBridge) (g : Z) :
  in_service b g ->
  activeConnections (getStats b) = count_connected (connections b) /\
  messagesProcessed (getStats b) = (sum_messageCount (connections b) + g)%Z.
Proof.
  unfold getStats.
  induction 1 as [t0 now
                 | b g now serverId message _ [IHa IHm]
                 | b g now _ [IHa IHm]
                 | b g now serverId data _ [IHa IHm]
                 | b g serverId c _ [IHa IHm] Hget Hconn
                 | b g now active amount _ [IHa IHm]].
  - split; reflexivity.
  - destruct (sendMessage_keeps now serverId message b) as (Hc & Hs & _).
    rewrite Hc, Hs. auto.
  - destruct (pingServers_keeps now b) as (Hc & Hs).
    rewrite Hc, Hs. auto.
  - destruct data as [message|]; [|auto].
    destruct (Map_get serverId (connections b)) as [c|] eqn:Hget.
    + destruct (handleMessage_known now serverId message b c Hget) as (Hc & Hm & Ha).
      rewrite Hc, Hm, Ha.
      rewrite (count_connected_set _ _ _ _ Hget), (sum_messageCount_set _ _ _ _ Hget).
      unfold is_connected. simpl. split; lia.
    + destruct (handleMessage_unknown now serverId (parses_to message) b Hget) as (Hc & Hs).
      rewrite Hc, Hs. auto.
  - destruct (handleDisconnect_known serverId b c Hget) as (Hc & Ha & Hm).
    rewrite Hc, Ha, Hm.
    rewrite (count_connected_set _ _ _ _ Hget), (sum_messageCount_set _ _ _ _ Hget).
    rewrite Hconn. unfold is_connected. simpl. split; lia.
  - unfold updateStats. destruct active; simpl; split; lia.
Qed.

End Properties.

(** * The methods on the platform's bridge

    The statements below run the methods on [integer_host]. *)

Lemma sendMessage_unknown_endpoint_witness :
  Map_get "missing-id" (connections platform) = None /\
  fst (sendMessage 2 "missing-id" ping platform)
  = Throw (UnknownEndpointError "missing-id") /\
  getStats (snd (sendMessage 2 "missing-id" ping platform)) = getStats platform.
Proof.
  split; [reflexivity|].
  destruct (sendMessage_unknown_endpoint 2 "missing-id" ping platform)
    as (Hthrow & Hstats & _); [reflexivity|].
  split; [exact Hthrow | exact Hstats].
Defined.

Lemma sendMessage_not_connected_witness :
  Map_get "demo-server" (connections platform_after_disconnect) <> None /\
  fst (sendMessage 2 "demo-server" ping platform_after_disconnect)
  = Throw (NotConnectedError "demo-server") /\
  snd (sendMessage 2 "demo-server" ping platform_after_disconnect)
  = platform_after_disconnect.
Proof.
  split; [discriminate|].
  destruct (sendMessage_not_connected 2 "demo-server" ping platform_after_disconnect
              {| id := "demo-server"; server := demo_server; ws := None;
                 status := "disconnected"; lastPing := 1; messageCount := 0 |})
    as (Hthrow & _ & _ & Hsame); [reflexivity | reflexivity |].
  split; [exact Hthrow | exact Hsame].
Defined.

Lemma tools_list_three_tools_witness :
  exists r,
    sendMessage 2 "demo-server" tools_list platform = (Normal r, platform) /\
    tool_names r = Some [VStr "calculate"; VStr "weather"; VStr "translate"].
Proof.
  destruct (tools_list_three_tools 2 "demo-server" platform
              {| id := "demo-server"; server := demo_server; ws := None;
                 status := "connected"; lastPing := 1; messageCount := 0 |})
    as (r & Hsend & Hnames & _); [reflexivity | reflexivity | reflexivity |].
  exists r. split; [exact Hsend | exact Hnames].
Defined.

Lemma simulated_outcome_depends_on_message_only_witness :
  fst (sendMessage 2 "demo-server"
         {| method := VStr "tools/call"; params := VObj [("name", VStr "weather")] |}
         platform)
  = fst (sendMessage 7 "file-manager"
           {| method := VStr "tools/call"; params := VObj [("name", VStr "weather")] |}
           platform_after_frame).
Proof.
  destruct (simulated_outcome_depends_on_message_only 2 7 "demo-server" "file-manager"
              platform platform_after_frame
              {| id := "demo-server"; server := demo_server; ws := None;
                 status := "connected"; lastPing := 1; messageCount := 0 |}
              {| id := "file-manager";
                 server :=
                   {| name := "File Manager";
                      url := "ws://localhost:3003/mcp";
                      server_status := "simulated";
                      capabilities := ["resources"; "file-operations"];
                      tools :=
                        [ {| tool_name := "read-file";
                             tool_description := "Read file contents" |};
                          {| tool_name := "write-file";
                             tool_description := "Write file contents" |};
                          {| tool_name := "list-files";
                             tool_description := "List directory contents" |} ] |};
                 ws := None; status := "connected"; lastPing := 1; messageCount := 0 |}
              {| method := VStr "tools/call"; params := VObj [("name", VStr "weather")] |})
    as (Hsame & _);
    [reflexivity | reflexivity | reflexivity | reflexivity | reflexivity | reflexivity |].
  exact Hsame.
Defined.

(** C7, on the code.  On the platform's bridge the method name
    [constructor], which is none of the three of the table, is answered with
    the member [Object.prototype.constructor] that the table inherits, not
    with the placeholder. *)
Theorem constructor_method_gets_inherited_member :
  sendMessage 2 "demo-server"
    {| method := VStr "constructor"; params := VObj [] |} platform
  = (Normal (Inherited "constructor"), platform).
Proof. vm_compute. reflexivity. Qed.

Lemma not_other_methods_get_placeholder : ~ other_methods_get_placeholder.
Proof.
  intros H.
  specialize (H 2%Z "demo-server" platform
                {| id := "demo-server"; server := demo_server; ws := None;
                   status := "connected"; lastPing := 1; messageCount := 0 |}
                "constructor" (VObj [])
                eq_refl eq_refl eq_refl).
  assert (Hcall : fst (sendMessage 2 "demo-server"
                    {| method := VStr "constructor"; params := VObj [] |} platform)
                  = Normal (Data demo_response)).
  { apply H; discriminate. }
  discriminate Hcall.
Qed.

(** A tool name that shadows [toString] makes the call throw, whatever the
    method. *)
Lemma simulateResponse_can_throw :
  sendMessage 2 "demo-server"
    {| method := VStr "status";
       params := VObj [("name", VObj [("toString", VNull)])] |} platform
  = (Throw (TypeError "Cannot convert object to primitive value"), platform).
Proof. vm_compute. reflexivity. Qed.

(** C3, as written, fails: a successful [sendMessage] to the demo server
    leaves its message counter at 0. *)
Lemma sendMessage_counts_nothing : ~ send_counts_as_activity.
Proof.
  intros H.
  assert (Hsend : sendMessage 2 "demo-server" ping platform
                  = (Normal (Data demo_response), platform))
    by (vm_compute; reflexivity).
  destruct (H 2%Z "demo-server" ping platform
              {| id := "demo-server"; server := demo_server; ws := None;
                 status := "connected"; lastPing := 1; messageCount := 0 |}
              (Data demo_response) platform eq_refl eq_refl Hsend)
    as (c' & Hget & Hcount & _).
  vm_compute in Hget. injection Hget as <-.
  discriminate Hcount.
Qed.

Lemma send_keeps_counters_receive_counts_witness :
  (forall message r b',
     sendMessage 2 "demo-server" message platform = (Normal r, b') ->
     connections b' = connections platform /\ getStats b' = getStats platform) /\
  (forall message,
     exists c',
       Map_get "demo-server"
         (connections (handleMessage 2 "demo-server" (parses_to message) platform))
       = Some c' /\
       messageCount c' = 1%Z /\ lastPing c' = 2%Z /\ status c' = "connected").
Proof.
  exact (send_keeps_counters_receive_counts 2 "demo-server" platform
           {| id := "demo-server"; server := demo_server; ws := None;
              status := "connected"; lastPing := 1; messageCount := 0 |}
           eq_refl eq_refl).
Defined.

(** C4, as written, fails: after [close()] the demo server is registered
    and [getConnections()] reports nothing. *)
Lemma close_reports_nothing : ~ close_marks_closed platform.
Proof.
  intros [Hreported _].
  destruct (Hreported "demo-server" demo_server eq_refl) as (v & Hin & _).
  exact Hin.
Qed.

(** [close()] does not touch the stats either: the three connections stay
    counted. *)
Lemma close_keeps_activeConnections :
  activeConnections (getStats (close platform)) = 3%Z /\
  forall b : MCPBridge, getStats (close b) = getStats b.
Proof.
  split; [reflexivity|].
  intros b. unfold close, getStats. simpl.
  induction (Map_values (connections b)) as [|c rest IH] using rev_ind; simpl.
  - reflexivity.
  - rewrite fold_left_app. simpl.
    destruct (ws c); [destruct (status c =? "connected")|]; simpl; exact IH.
Qed.

(** C5, as written, fails: one periodic update that adds synthetic activity
    takes [messagesProcessed] to 2 while every message counter is 0. *)
Lemma stats_drift_on_update : ~ stats_never_drift.
Proof.
  intros H.
  destruct (H 0%Z [call_initialize 1; call_updateStats 2 true 2]) as [_ Hsum].
  vm_compute in Hsum. discriminate Hsum.
Qed.

(** The two other ways the stats leave the connection set: [close()] keeps
    counting the connections it removed, and a second [handleDisconnect] for
    the same id, as a socket that reports [error] and then [close] causes,
    subtracts twice. *)
Lemma stats_drift_on_close_and_repeated_disconnect :
  ~ stats_in_sync (run [call_initialize 1; call_close] (new_MCPBridge 0)) /\
  ~ stats_in_sync
      (run [call_initialize 1; call_handleDisconnect "demo-server";
            call_handleDisconnect "demo-server"] (new_MCPBridge 0)).
Proof.
  split; intros [Hactive _]; vm_compute in Hactive; discriminate Hactive.
Qed.

Lemma stats_in_service_witness :
  in_service (updateStats 9 true 2 platform_after_frame) 2 /\
  activeConnections (getStats (updateStats 9 true 2 platform_after_frame)) = 3%Z /\
  messagesProcessed (getStats (updateStats 9 true 2 platform_after_frame)) = 3%Z.
Proof.
  assert (Hservice : in_service (updateStats 9 true 2 platform_after_frame) 2).
  { apply (service_updateStats platform_after_frame 0 9 true 2).
    apply (service_handleMessage platform 0 2 "demo-server" (parses_to VNull)).
    apply (service_initialize 0 1). }
  split; [exact Hservice|].
  destruct (stats_in_service _ _ Hservice) as [Hactive Hsum].
  split; [exact Hactive | exact Hsum].
Defined.

(** C8, as written, fails: connecting the demo server again after it has
    received a frame puts its message counter back to 0. *)
Lemma connect_resets_counter : ~ connect_is_noop.
Proof.
  intros H.
  destruct (H 3%Z "demo-server" demo_server platform_after_frame
              {| id := "demo-server"; server := demo_server; ws := None;
                 status := "connected"; lastPing := 2; messageCount := 1 |}
              eq_refl eq_refl)
    as [_ (c' & Hget & Hcount)].
  vm_compute in Hget. injection Hget as <-.
  discriminate Hcount.
Qed.

Lemma connect_simulated_replaces_witness :
  server_status demo_server = "simulated" /\
  Map_get "demo-server"
    (connections (snd (connectToServer 3 "demo-server" demo_server platform_after_frame)))
  = Some {| id := "demo-server"; server := demo_server; ws := None;
            status := "connected"; lastPing := 3; messageCount := 0 |}.
Proof.
  split; [reflexivity|].
  destruct (connect_simulated_replaces 3 "demo-server" demo_server
              platform_after_frame eq_refl) as (_ & Hfresh & _).
  exact Hfresh.
Defined.

(** * Further properties of the bridge *)

Section BridgeFacts.
Context {host : Host}.

(** ** The map, continued *)

Lemma Map_get_In {V} (k : string) (v : V) (m : Map V) :
  Map_get k m = Some v -> In (k, v) m.
Proof.
  induction m as [|[k0 v0] rest IH]; simpl; [discriminate|].
  destruct (k =? k0) eqn:E.
  - apply String.eqb_eq in E. intros [= ->]. left. now subst.
  - intros H. right. auto.
Qed.

Lemma Map_get_NoDup_In {V} (k : string) (v : V) (m : Map V) :
  NoDup (map fst m) -> In (k, v) m -> Map_get k m = Some v.
Proof.
  induction m as [|[k0 v0] rest IH]; simpl; [tauto|].
  intros Hnd [Heq|Hin].
  - injection Heq as -> ->. now rewrite String.eqb_refl.
  - inversion Hnd as [|? ? Hnotin Hrest]; subst.
    destruct (k =? k0) eqn:E.
    + apply String.eqb_eq in E. subst k0.
      exfalso. apply Hnotin. apply (in_map fst) in Hin. exact Hin.
    + auto.
Qed.

Lemma Map_set_In_key {V} (k k' : string) (v : V) (m : Map V) :
  In k' (map fst (Map_set k v m)) -> k' = k \/ In k' (map fst m).
Proof.
  induction m as [|[k0 v0] rest IH]; simpl.
  - intros [<-|[]]. now left.
  - destruct (k =? k0); simpl; intros [<-|Hin]; auto.
    destruct (IH Hin); auto.
Qed.

Lemma Map_set_NoDup {V} (k : string) (v : V) (m : Map V) :
  NoDup (map fst m) -> NoDup (map fst (Map_set k v m)).
Proof.
  induction m as [|[k0 v0] rest IH]; simpl; intros Hnd.
  - constructor; [intros []|constructor].
  - destruct (k =? k0) eqn:E; simpl; [exact Hnd|].
    inversion Hnd as [|? ? Hnotin Hrest]; subst.
    constructor; [|auto].
    intros Hin. destruct (Map_set_In_key _ _ _ _ Hin) as [->|Hold]; [|auto].
    now rewrite String.eqb_refl in E.
Qed.

Lemma Map_set_Forall {V} (P : string * V -> Prop) (k : string) (v : V) (m : Map V) :
  P (k, v) -> Forall P m -> Forall P (Map_set k v m).
Proof.
  intros Hnew. induction m as [|[k0 v0] rest IH]; simpl; intros Hall.
  - constructor; auto.
  - inversion Hall as [|? ? H0 Hrest]; subst.
    destruct (k =? k0) eqn:E.
    + apply String.eqb_eq in E. subst k0. constructor; auto.
    + constructor; auto.
Qed.

Lemma tidy_set (k : string) (c : Connection) (m : Map Connection) :
  entry_ok (k, c) -> tidy m -> tidy (Map_set k c m).
Proof.
  intros Hok [Hnd Hall]. split.
  - now apply Map_set_NoDup.
  - now apply Map_set_Forall.
Qed.

Lemma tidy_get (k : string) (c : Connection) (m : Map Connection) :
  tidy m -> Map_get k m = Some c -> entry_ok (k, c).
Proof.
  intros [_ Hall] Hget. apply Map_get_In in Hget.
  rewrite Forall_forall in Hall. exact (Hall _ Hget).
Qed.

(** ** What each method does to the connection map *)

Lemma connectToServer_tidy (now : Date) (serverId : string) (s : Server)
    (b : MCPBridge) :
  tidy (connections b) ->
  tidy (connections (snd (connectToServer now serverId s b))).
Proof.
  intros Htidy. unfold connectToServer.
  destruct (server_status s =? "simulated"); simpl.
  - apply tidy_set; [|exact Htidy]. repeat split; simpl; auto. lia.
  - destruct (WebSocket_rejects (url s)); simpl; exact Htidy.
Qed.

Lemma handleMessage_tidy (now : Date) (serverId : string) (data : Frame)
    (b : MCPBridge) :
  tidy (connections b) -> tidy (connections (handleMessage now serverId data b)).
Proof.
  intros Htidy. unfold handleMessage. destruct data as [message|]; [|exact Htidy].
  destruct (Map_get serverId (connections b)) as [c|] eqn:Hget; simpl; [|exact Htidy].
  destruct (tidy_get _ _ _ Htidy Hget) as (Hid & Hstatus & Hcount). simpl in *.
  apply tidy_set; [|exact Htidy]. repeat split; simpl; auto. lia.
Qed.

Lemma handleDisconnect_tidy (serverId : string) (b : MCPBridge) :
  tidy (connections b) -> tidy (connections (handleDisconnect serverId b)).
Proof.
  intros Htidy. unfold handleDisconnect.
  destruct (Map_get serverId (connections b)) as [c|] eqn:Hget; simpl; [|exact Htidy].
  destruct (tidy_get _ _ _ Htidy Hget) as (Hid & Hstatus & Hcount). simpl in *.
  apply tidy_set; [|exact Htidy]. repeat split; simpl; auto.
Qed.

Lemma initialize_loop_tidy (now : Date) (entries : Map Server) (b : MCPBridge) :
  tidy (connections b) ->
  tidy (connections
    (fold_left
      (fun acc entry =>
         let '(id, server) := entry in
         match connectToServer now id server acc with
         | (Normal _, acc') =>
             set_stats
               (fun s => {| totalConnections := totalConnections s + 1;
                            activeConnections := activeConnections s + 1;
                            messagesProcessed := messagesProcessed s;
                            lastActivity := lastActivity s |}) acc'
         | (Throw _, acc') => acc'
         end)
      entries b)).
Proof.
  revert b. induction entries as [|[k s] rest IH]; intros b Htidy; simpl; [exact Htidy|].
  apply IH.
  pose proof (connectToServer_tidy now k s b Htidy) as Hstep.
  destruct (connectToServer now k s b) as [[u|e] b']; simpl in *; exact Hstep.
Qed.

Lemma perform_tidy (c : Call) (b : MCPBridge) :
  tidy (connections b) -> tidy (connections (perform c b)).
Proof.
  intros Htidy. destruct c as [now|now k m|now k d|k|now a n|now|]; simpl.
  - unfold initialize. simpl. now apply initialize_loop_tidy.
  - destruct (sendMessage_keeps now k m b) as (-> & _). exact Htidy.
  - now apply handleMessage_tidy.
  - now apply handleDisconnect_tidy.
  - unfold updateStats. destruct a; simpl; exact Htidy.
  - destruct (pingServers_keeps now b) as (-> & _). exact Htidy.
  - split; constructor.
Qed.

Lemma reachable_tidy (b : MCPBridge) : reachable b -> tidy (connections b).
Proof.
  induction 1 as [t0|b c _ IH|b now k s _ IH|b now k s w _ IH].
  - split; constructor.
  - now apply perform_tidy.
  - now apply connectToServer_tidy.
  - unfold on_open. simpl. apply tidy_set; [|exact IH].
    repeat split; simpl; auto. lia.
Qed.

(** X1.  In every state of a bridge no key occurs twice in the connection
    map and every connection is stored under its own id, so
    [getConnections()] lists each id at most once and [sendMessage(id, ...)]
    addresses the connection whose view carries that id. *)
Theorem connections_keyed_by_id (b : MCPBridge) :
  reachable b ->
  NoDup (map view_id (getConnections b)) /\
  forall serverId c,
    Map_get serverId (connections b) = Some c -> id c = serverId.
Proof.
  intros Hreach. pose proof (reachable_tidy b Hreach) as [Hnd Hall]. split.
  - unfold getConnections, Map_values. rewrite !map_map. simpl.
    assert (Heq : map (fun x : string * Connection => id (snd x)) (connections b)
                  = map fst (connections b)).
    { apply map_ext_in. intros e He. rewrite Forall_forall in Hall.
      now destruct (Hall e He). }
    rewrite Heq. exact Hnd.
  - intros k c Hget. exact (proj1 (tidy_get k c _ (conj Hnd Hall) Hget)).
Qed.

(** X2.  In every state of a bridge the status [getConnections()] reports
    for a connection is [connected] or [disconnected], never anything else,
    and its message count is not negative. *)
Theorem views_connected_or_disconnected (b : MCPBridge) (v : ConnectionView) :
  reachable b ->
  In v (getConnections b) ->
  (view_status v = "connected" \/ view_status v = "disconnected") /\
  (0 <= view_messageCount v)%Z.
Proof.
  intros Hreach Hin. pose proof (reachable_tidy b Hreach) as [_ Hall].
  unfold getConnections, Map_values in Hin. rewrite map_map in Hin.
  apply in_map_iff in Hin. destruct Hin as ([k c] & <- & He).
  rewrite Forall_forall in Hall. destruct (Hall _ He) as (_ & Hstatus & Hcount).
  simpl in *. auto.
Qed.

(** ** Initializing *)

Lemma connectToServer_frame (now : Date) (serverId : string) (s : Server)
    (b : MCPBridge) :
  servers (snd (connectToServer now serverId s b)) = servers b /\
  intervals (snd (connectToServer now serverId s b)) = intervals b /\
  stats (snd (connectToServer now serverId s b)) = stats b /\
  isInitialized (snd (connectToServer now serverId s b)) = isInitialized b.
Proof.
  unfold connectToServer.
  destruct (server_status s =? "simulated"); simpl; auto.
  destruct (WebSocket_rejects (url s)); simpl; auto.
Qed.

Lemma connectToServer_returns (now : Date) (serverId : string) (s : Server)
    (b : MCPBridge) :
  fst (connectToServer now serverId s b) = Normal tt /\ connects s = true \/
  (exists e, fst (connectToServer now serverId s b) = Throw e) /\ connects s = false.
Proof.
  unfold connectToServer, connects.
  destruct (server_status s =? "simulated"); simpl; auto.
  destruct (WebSocket_rejects (url s)); simpl; eauto.
Qed.

Lemma initialize_loop_stats (now : Date) (entries : Map Server) (b : MCPBridge) :
  let after :=
    fold_left
      (fun acc entry =>
         let '(id, server) := entry in
         match connectToServer now id server acc with
         | (Normal _, acc') =>
             set_stats
               (fun s => {| totalConnections := totalConnections s + 1;
                            activeConnections := activeConnections s + 1;
                            messagesProcessed := messagesProcessed s;
                            lastActivity := lastActivity s |}) acc'
         | (Throw _, acc') => acc'
         end)
      entries b in
  totalConnections (stats after) = (totalConnections (stats b) + count_connects entries)%Z /\
  activeConnections (stats after) = (activeConnections (stats b) + count_connects entries)%Z /\
  messagesProcessed (stats after) = messagesProcessed (stats b) /\
  lastActivity (stats after) = lastActivity (stats b) /\
  servers after = servers b /\
  intervals after = intervals b.
Proof.
  revert b. induction entries as [|[k s] rest IH]; intros b.
  - unfold count_connects. simpl. repeat split; lia.
  - simpl fold_left.
    destruct (connectToServer_frame now k s b) as (Hsv & Hiv & Hst & _).
    destruct (connectToServer_returns now k s b) as [[Hr Hc]|[[e Hr] Hc]];
      destruct (connectToServer now k s b) as [[u|e'] b'] eqn:Hstep;
      simpl in Hr, Hsv, Hiv, Hst; try discriminate Hr;
      match goal with |- context [fold_left ?f rest ?acc] =>
        destruct (IH acc) as (Ht & Ha & Hm & Hl & Hs & Hi) end;
      simpl in Ht, Ha, Hm, Hl, Hs, Hi;
      cbv zeta; rewrite Ht, Ha, Hm, Hl, Hs, Hi;
      unfold count_connects; simpl filter; rewrite Hc; simpl List.length;
      rewrite ?Hst, ?Hsv, ?Hiv; repeat split; try reflexivity; try lia.
Qed.

(** X3.  [initialize()] adds to [totalConnections] and to
    [activeConnections] the number of registered servers for which
    [connectToServer] returns: the simulated ones and the ones whose socket
    could be created.  A server whose socket constructor throws is skipped
    and the loop goes on; a socket that has not reported [open] yet already
    counts as an active connection. *)
Theorem initialize_counts_servers (now : Date) (b : MCPBridge) :
  totalConnections (getStats (initialize now b))
  = (totalConnections (getStats b) + count_connects (servers b))%Z /\
  activeConnections (getStats (initialize now b))
  = (activeConnections (getStats b) + count_connects (servers b))%Z /\
  messagesProcessed (getStats (initialize now b)) = messagesProcessed (getStats b) /\
  isInitialized (initialize now b) = true.
Proof.
  unfold initialize, getStats. simpl.
  destruct (initialize_loop_stats now (servers b) b) as (Ht & Ha & Hm & _).
  simpl in Ht, Ha, Hm. auto.
Qed.

Lemma initialize_loop_keeps_fresh (now : Date) (serverId : string)
    (entries : Map Server) (b : MCPBridge) :
  (exists c, Map_get serverId (connections b) = Some c /\ freshly_connected now c) ->
  exists c,
    Map_get serverId (connections
      (fold_left
        (fun acc entry =>
           let '(id, server) := entry in
           match connectToServer now id server acc with
           | (Normal _, acc') =>
               set_stats
                 (fun s => {| totalConnections := totalConnections s + 1;
                              activeConnections := activeConnections s + 1;
                              messagesProcessed := messagesProcessed s;
                              lastActivity := lastActivity s |}) acc'
           | (Throw _, acc') => acc'
           end)
        entries b)) = Some c /\
    freshly_connected now c.
Proof.
  revert b. induction entries as [|[k s] rest IH]; intros b Hfresh; simpl; [exact Hfresh|].
  apply IH. unfold connectToServer.
  destruct (server_status s =? "simulated"); simpl.
  - destruct (String.eqb_spec serverId k) as [->|Hne].
    + rewrite Map_get_set_same. eexists. split; [reflexivity|].
      repeat split.
    + rewrite (Map_get_set_other k serverId _ _ Hne). exact Hfresh.
  - destruct (WebSocket_rejects (url s)); simpl; exact Hfresh.
Qed.

(** X4.  After [initialize()] every registered server that is simulated
    has a connection: in [connected] state, with message count 0, last
    activity at the time of the call and no socket, whatever connection it
    had before. *)
Theorem initialize_connects_simulated (now : Date) (b : MCPBridge)
    (serverId : string) (s : Server) :
  In (serverId, s) (servers b) ->
  server_status s = "simulated" ->
  exists c,
    Map_get serverId (connections (initialize now b)) = Some c /\
    status c = "connected" /\ messageCount c = 0%Z /\ lastPing c = now /\ ws c = None.
Proof.
  intros Hin Hsim. unfold initialize. simpl.
  generalize b at 2. revert Hin. generalize (servers b) as entries.
  induction entries as [|[k s0] rest IH]; intros Hin b0; simpl in *; [tauto|].
  destruct Hin as [Heq|Hin].
  - injection Heq as -> ->.
    apply (initialize_loop_keeps_fresh now serverId rest).
    unfold connectToServer. rewrite Hsim. simpl.
    rewrite Map_get_set_same. eexists. split; [reflexivity|]. repeat split.
  - apply IH. exact Hin.
Qed.

(** ** Timers and closing *)

Lemma close_loop_frame (entries : list Connection) (b : MCPBridge) :
  let after :=
    fold_left
      (fun acc connection =>
         match ws connection with
         | Some w =>
             if status connection =? "connected"
             then call_socket (ws_close w) acc
             else acc
         | None => acc
         end)
      entries b in
  stats after = stats b /\
  emitted after = emitted b /\
  intervals after = intervals b /\
  servers after = servers b /\
  isInitialized after = isInitialized b /\
  socket_calls after
  = (socket_calls b
     ++ flat_map
          (fun connection =>
             match ws connection with
             | Some w => if is_connected connection then [ws_close w] else []
             | None => []
             end) entries)%list.
Proof.
  revert b. induction entries as [|c rest IH]; intros b; simpl.
  - rewrite app_nil_r. repeat split.
  - unfold is_connected.
    destruct (ws c) as [w|]; [destruct (status c =? "connected")|];
      match goal with |- context [fold_left ?f rest ?acc] =>
        destruct (IH acc) as (H1 & H2 & H3 & H4 & H5 & H6) end;
      simpl in H1, H2, H3, H4, H5, H6;
      rewrite H1, H2, H3, H4, H5, H6; simpl;
      rewrite <- ?app_assoc; simpl; repeat split.
Qed.

(** X5.  [close()] empties the connection map and calls [close] on the
    socket of every connection that has one and is connected, in map order.
    It does nothing else: no [server-disconnected] event is emitted, the
    stats object is not written, the registry stays. *)
Theorem close_only_closes_sockets (b : MCPBridge) :
  connections (close b) = [] /\
  socket_calls (close b) = (socket_calls b ++ closing_calls (connections b))%list /\
  emitted (close b) = emitted b /\
  getStats (close b) = getStats b /\
  servers (close b) = servers b.
Proof.
  unfold close, getStats. simpl.
  destruct (close_loop_frame (Map_values (connections b)) b)
    as (Hs & He & _ & Hr & _ & Hc).
  simpl in Hs, He, Hr, Hc. rewrite Hs, He, Hr, Hc.
  repeat split. f_equal. unfold closing_calls, Map_values.
  rewrite flat_map_concat_map, map_map, <- flat_map_concat_map. reflexivity.
Qed.

(** X6.  The two intervals [initialize()] registers, the heartbeat every
    30000 ms and the stats update every 10000 ms, are never cancelled:
    [close()] leaves every registered interval in place, so after
    [initialize()] and [close()] both tasks are still scheduled. *)
Theorem close_keeps_intervals (now : Date) (b : MCPBridge) :
  intervals (close b) = intervals b /\
  intervals (initialize now b)
  = (intervals b ++ [(30000%Z, task_pingServers); (10000%Z, task_updateStats)])%list /\
  In (30000%Z, task_pingServers) (intervals (close (initialize now b))) /\
  In (10000%Z, task_updateStats) (intervals (close (initialize now b))).
Proof.
  assert (Hclose : forall x, intervals (close x) = intervals x).
  { intros x. unfold close. simpl.
    now destruct (close_loop_frame (Map_values (connections x)) x) as (_ & _ & H & _). }
  assert (Hinit : intervals (initialize now b)
                  = (intervals b
                     ++ [(30000%Z, task_pingServers); (10000%Z, task_updateStats)])%list).
  { unfold initialize. simpl.
    destruct (initialize_loop_stats now (servers b) b) as (_ & _ & _ & _ & _ & Hi).
    simpl in Hi. rewrite Hi, <- app_assoc. reflexivity. }
  split; [apply Hclose|]. split; [exact Hinit|].
  rewrite Hclose, Hinit. split; apply in_or_app; right; simpl; auto.
Qed.

(** X7.  [close()] is idempotent: a second call finds no connection and
    changes nothing. *)
Theorem close_twice (b : MCPBridge) : close (close b) = close b.
Proof. reflexivity. Qed.

(** ** Disconnecting *)

(** X8.  [handleDisconnect] is idempotent on the connection map but not on
    the stats: a second call for the same id, as a socket that reports
    [error] and then [close] makes, leaves the connection as the first call
    put it, in [disconnected] state with its counter and last activity kept,
    and subtracts one from [activeConnections] again. *)
Theorem handleDisconnect_twice (serverId : string) (b : MCPBridge) (c : Connection) :
  Map_get serverId (connections b) = Some c ->
  let once := on_error serverId b in
  let twice := on_close serverId once in
  Map_get serverId (connections once)
  = Some {| id := id c; server := server c; ws := ws c; status := "disconnected";
            lastPing := lastPing c; messageCount := messageCount c |} /\
  connections twice = connections once /\
  activeConnections (getStats once) = (activeConnections (getStats b) - 1)%Z /\
  activeConnections (getStats twice) = (activeConnections (getStats b) - 2)%Z.
Proof.
  intros Hget once twice. subst twice once. unfold on_error, on_close, getStats.
  destruct (handleDisconnect_known serverId b c Hget) as (Hc & Ha & _).
  assert (Hget1 : Map_get serverId (connections (handleDisconnect serverId b))
                  = Some {| id := id c; server := server c; ws := ws c;
                            status := "disconnected"; lastPing := lastPing c;
                            messageCount := messageCount c |}).
  { rewrite Hc. apply Map_get_set_same. }
  destruct (handleDisconnect_known serverId _ _ Hget1) as (Hc2 & Ha2 & _).
  split; [exact Hget1|]. split; [|split].
  - rewrite Hc2, Hc. simpl. apply Map_set_twice.
  - exact Ha.
  - rewrite Ha2, Ha. lia.
Qed.

(** X9.  An event for an id that has no connection never changes the
    connection map or the stats: [handleDisconnect] does nothing at all, and
    [handleMessage] only publishes the [message] event when the frame
    parses, without counting it. *)
Theorem events_for_unknown_id (now : Date) (serverId : string) (data : Frame)
    (b : MCPBridge) :
  Map_get serverId (connections b) = None ->
  handleDisconnect serverId b = b /\
  connections (handleMessage now serverId data b) = connections b /\
  getStats (handleMessage now serverId data b) = getStats b /\
  emitted (handleMessage now serverId data b)
  = (emitted b ++ match data with
                  | parses_to message => [message_event serverId message]
                  | malformed => []
                  end)%list.
Proof.
  intros Hget. unfold handleDisconnect, handleMessage, getStats. rewrite Hget.
  destruct data; simpl; rewrite ?app_nil_r; auto.
Qed.

(** X10.  Frames are counted one by one: after [n] frames that parse, from
    a server that has a connection, the connection's message count and
    [messagesProcessed] are both [n] higher, the status of the connection is
    what it was (a frame never reconnects a disconnected endpoint), and
    [activeConnections] is unchanged. *)
Theorem frames_are_counted (now : Date) (serverId : string) (frames : list value)
    (b : MCPBridge) (c : Connection) :
  Map_get serverId (connections b) = Some c ->
  exists c',
    Map_get serverId (connections (receive_all now serverId frames b)) = Some c' /\
    messageCount c' = (messageCount c + Z.of_nat (List.length frames))%Z /\
    status c' = status c /\
    messagesProcessed (getStats (receive_all now serverId frames b))
    = (messagesProcessed (getStats b) + Z.of_nat (List.length frames))%Z /\
    activeConnections (getStats (receive_all now serverId frames b))
    = activeConnections (getStats b).
Proof.
  unfold receive_all, getStats. revert b c.
  induction frames as [|m rest IH]; intros b c Hget.
  - exists c. simpl. repeat split; auto; lia.
  - cbn [fold_left].
    destruct (handleMessage_known now serverId m b c Hget) as (Hc & Hm & Ha).
    assert (Hget1 : Map_get serverId
                      (connections (handleMessage now serverId (parses_to m) b))
                    = Some {| id := id c; server := server c; ws := ws c;
                              status := status c; lastPing := now;
                              messageCount := messageCount c + 1 |}).
    { rewrite Hc. apply Map_get_set_same. }
    destruct (IH _ _ Hget1) as (c' & Hg & Hcount & Hstatus & Hmp & Hac).
    exists c'. simpl in Hcount, Hstatus.
    rewrite Hg, Hmp, Hac, Hm, Ha. simpl List.length.
    repeat split; auto; lia.
Qed.

(** ** The heartbeat *)

Lemma ping_loop_frames (now : Date) (entries : Map Connection) (b : MCPBridge) :
  (forall k c, In (k, c) entries -> Map_get k (connections b) = Some c) ->
  socket_calls
    (fold_left
      (fun acc entry =>
         let '(id, connection) := entry in
         if status connection =? "connected"
         then snd (sendMessage now id {| method := VStr "ping"; params := VUndefined |} acc)
         else acc)
      entries b)
  = (socket_calls b ++ heartbeat_frames entries)%list.
Proof.
  revert b. induction entries as [|[k c] rest IH]; intros b Hall.
  - simpl. now rewrite app_nil_r.
  - cbn [fold_left]. cbv beta iota.
    assert (Hget : Map_get k (connections b) = Some c) by (apply Hall; now left).
    assert (Hrest : forall acc, connections acc = connections b ->
              forall k0 c0, In (k0, c0) rest -> Map_get k0 (connections acc) = Some c0).
    { intros acc Heq k0 c0 Hin. rewrite Heq. apply Hall. now right. }
    unfold heartbeat_frames. cbn [flat_map]. fold (heartbeat_frames rest).
    unfold live_socket, is_connected, is_simulated. cbn [snd].
    destruct (status c =? "connected") eqn:Hst; cbn [andb].
    + rewrite IH.
      * unfold sendMessage. rewrite Hget, Hst. cbn [negb].
        destruct (server_status (server c) =? "simulated"); cbn [negb snd].
        -- reflexivity.
        -- destruct (ws c) as [w|]; cbn [snd].
           ++ unfold call_socket. cbn [socket_calls]. unfold heartbeat.
              now rewrite <- app_assoc.
           ++ reflexivity.
      * apply Hrest. apply sendMessage_keeps.
    + rewrite IH; [reflexivity|]. now apply Hrest.
Qed.

(** X11.  One heartbeat writes exactly one [{ method: 'ping' }] frame to the
    socket of every connection that is connected and not simulated, in map
    order, and nothing to any other socket; the connection map and the stats
    are as before, so a heartbeat is never counted as a message. *)
Theorem pingServers_frames (now : Date) (b : MCPBridge) :
  NoDup (map fst (connections b)) ->
  socket_calls (pingServers now b)
  = (socket_calls b ++ heartbeat_frames (connections b))%list /\
  connections (pingServers now b) = connections b /\
  getStats (pingServers now b) = getStats b.
Proof.
  intros Hnd. split.
  - unfold pingServers. apply ping_loop_frames.
    intros k c Hin. now apply Map_get_NoDup_In.
  - apply pingServers_keeps.
Qed.

(** ** Live servers *)

(** X12.  [connectToServer] throws exactly when the server is not simulated
    and the socket constructor rejects its address; the error then names the
    server and carries the constructor's reason, and the bridge is
    unchanged. *)
Theorem connectToServer_throws_iff (now : Date) (serverId : string) (s : Server)
    (b : MCPBridge) (e : JsError) :
  fst (connectToServer now serverId s b) = Throw e <->
  server_status s <> "simulated" /\
  exists reason,
    WebSocket_rejects (url s) = Some reason /\
    e = Error ("Failed to connect to " ++ name s ++ ": " ++ reason) /\
    snd (connectToServer now serverId s b) = b.
Proof.
  unfold connectToServer.
  destruct (String.eqb_spec (server_status s) "simulated") as [Hsim|Hlive]; simpl.
  - split; [discriminate|]. intros [Hne _]. contradiction.
  - destruct (WebSocket_rejects (url s)) as [reason|]; simpl; split.
    + intros [= <-]. split; [exact Hlive|]. eauto.
    + intros (_ & r & [= <-] & -> & _). reflexivity.
    + discriminate.
    + intros (_ & r & Hr & _). discriminate Hr.
Qed.

(** X13.  A server that is not simulated has no connection while its socket
    has not reported [open]: [connectToServer] only creates the socket, and
    until [open] a call to the server is refused as an unknown endpoint.
    Once the socket is open, [sendMessage] writes the message to that socket
    and answers [{ status: 'sent', timestamp }] without counting
    anything. *)
Theorem live_server_needs_open (t1 t2 t3 : Date) (serverId : string) (s : Server)
    (message : Message) (b : MCPBridge) :
  server_status s <> "simulated" ->
  WebSocket_rejects (url s) = None ->
  Map_get serverId (connections b) = None ->
  let w := {| ws_url := url s |} in
  let created := snd (connectToServer t1 serverId s b) in
  let opened := on_open t2 serverId s w created in
  socket_calls created = (socket_calls b ++ [ws_new w])%list /\
  fst (sendMessage t3 serverId message created) = Throw (UnknownEndpointError serverId) /\
  fst (sendMessage t3 serverId message opened) = Normal (Sent t3) /\
  socket_calls (snd (sendMessage t3 serverId message opened))
  = (socket_calls b ++ [ws_new w; ws_send w message])%list /\
  connections (snd (sendMessage t3 serverId message opened)) = connections opened /\
  getStats (snd (sendMessage t3 serverId message opened)) = getStats b.
Proof.
  intros Hlive Haccept Habsent w created opened. subst opened created w.
  apply String.eqb_neq in Hlive.
  unfold connectToServer, UnknownEndpointError, getStats. rewrite Hlive, Haccept.
  cbn [snd]. unfold sendMessage, on_open.
  cbn [connections call_socket set_connections emit socket_calls stats].
  rewrite Habsent, Map_get_set_same.
  cbn [status server ws negb fst snd]. rewrite Hlive.
  cbn [String.eqb Ascii.eqb Bool.eqb negb fst snd connections call_socket socket_calls stats].
  simpl. rewrite <- app_assoc. repeat split.
Qed.

(** ** Simulated answers, continued *)

Lemma value_Forall_ind (P : value -> Prop) :
  P VUndefined -> P VNull -> (forall b, P (VBool b)) -> (forall n, P (VNum n)) ->
  (forall s, P (VStr s)) ->
  (forall items, Forall P items -> P (VArr items)) ->
  (forall props, P (VObj props)) ->
  forall v, P v.
Proof.
  intros Hu Hn Hb Hnum Hs Harr Hobj. fix IH 1.
  intros [| |b|n|s|items|props];
    [exact Hu|exact Hn|apply Hb|apply Hnum|apply Hs| |apply Hobj].
  apply Harr. induction items as [|x rest IHrest]; constructor; [apply IH|exact IHrest].
Qed.

Lemma join_throws (element : value -> Completion string) (items : list value)
    (e : JsError) :
  Forall (fun x => forall e0, element x = Throw e0 -> e0 = conversion_error) items ->
  (fix join (xs : list value) : Completion string :=
     match xs with
     | [] => Normal ""
     | [x] => element x
     | x :: rest =>
         s <- element x ;;
         r <- join rest ;;
         Normal (s ++ "," ++ r)
     end) items = Throw e ->
  e = conversion_error.
Proof.
  intros Hall. revert e.
  induction Hall as [|x rest Hx Hrest IH]; intros e; [discriminate|].
  destruct rest as [|y rest'].
  - apply Hx.
  - destruct (element x) as [sx|ex] eqn:Ex.
    + cbn [bindC]. intros H.
      match type of H with
      | bindC ?j _ = _ => destruct j as [sr|er]
      end.
      * discriminate H.
      * cbn [bindC] in H. injection H as <-. exact (IH er eq_refl).
    + cbn [bindC]. intros [= <-]. now apply Hx.
Qed.

Lemma ToString_throws (v : value) (e : JsError) :
  ToString v = Throw e -> e = conversion_error.
Proof.
  revert e. induction v as [| |b|n|s|items Hitems|props] using value_Forall_ind;
    intros e; simpl; try discriminate.
  - destruct b; discriminate.
  - apply join_throws.
    rewrite Forall_forall in *. intros x Hin e0.
    pose proof (Hitems x Hin e0) as Hx.
    destruct x; try discriminate; exact Hx.
  - destruct (has_own "toString" props); [|discriminate].
    intros [= <-]. reflexivity.
Qed.

Lemma ToString_primitive (v : value) :
  primitive v = true -> exists s, ToString v = Normal s.
Proof.
  destruct v as [| |b|n|s|items|props]; simpl; try discriminate; eauto.
  destruct b; eauto.
Qed.

(** X14.  A call to a simulated connected endpoint can fail in one way
    only, with the [TypeError] of a conversion to a string; and it cannot
    fail when the method and the [name] parameter are neither arrays nor
    objects. *)
Theorem simulated_call_errors (now : Date) (serverId : string) (message : Message)
    (b : MCPBridge) (c : Connection) :
  Map_get serverId (connections b) = Some c ->
  is_connected c = true ->
  is_simulated c = true ->
  (forall e, fst (sendMessage now serverId message b) = Throw e ->
             e = conversion_error) /\
  (primitive (method message) = true ->
   primitive (params_name message) = true ->
   exists r, fst (sendMessage now serverId message b) = Normal r).
Proof.
  intros Hget Hconn Hsim.
  rewrite (sendMessage_simulated now serverId message b c Hget Hconn Hsim).
  cbn [fst]. unfold simulateResponse. split.
  - intros e.
    destruct (ToString (or_else (params_name message) (VStr "unknown")))
      as [tool|e1] eqn:Htool; simpl.
    + destruct (ToString (method message)) as [key|e2] eqn:Hkey; simpl.
      * discriminate.
      * intros [= <-]. exact (ToString_throws _ _ Hkey).
    + intros [= <-]. exact (ToString_throws _ _ Htool).
  - intros Hm Hp.
    assert (Hor : primitive (or_else (params_name message) (VStr "unknown")) = true).
    { unfold or_else. destruct (truthy (params_name message)); auto. }
    destruct (ToString_primitive _ Hor) as [tool ->].
    destruct (ToString_primitive _ Hm) as [key ->].
    simpl. eauto.
Qed.

(** X15.  [tools/call] without a usable tool name, that is with [params]
    absent, without [name], or with a [name] that is falsy (empty string,
    [null], [false], zero), reports the tool as [unknown]. *)
Theorem tools_call_without_name (message : Message) :
  method message = VStr "tools/call" ->
  truthy (params_name message) = false ->
  simulateResponse message
  = Normal (Data (VObj [("result", VObj [("content", VArr
      [ VObj [("type", VStr "text");
              ("text", VStr "Tool executed successfully: unknown")] ])])])).
Proof.
  intros Hmethod Hfalsy. unfold simulateResponse, or_else.
  rewrite Hfalsy, Hmethod. reflexivity.
Qed.

(** ** The registry *)

Lemma ping_loop_servers (now : Date) (entries : Map Connection) (b : MCPBridge) :
  servers
    (fold_left
      (fun acc entry =>
         let '(id, connection) := entry in
         if status connection =? "connected"
         then snd (sendMessage now id {| method := VStr "ping"; params := VUndefined |} acc)
         else acc)
      entries b)
  = servers b.
Proof.
  revert b. induction entries as [|[k c] rest IH]; intros b; [reflexivity|].
  cbn [fold_left]. cbv beta iota. rewrite IH.
  destruct (status c =? "connected"); [|reflexivity].
  unfold sendMessage.
  destruct (Map_get k (connections b)) as [c0|]; [|reflexivity].
  destruct (negb (status c0 =? "connected")); [reflexivity|].
  destruct (server_status (server c0) =? "simulated"); [reflexivity|].
  destruct (ws c0); reflexivity.
Qed.

Lemma perform_servers (c : Call) (b : MCPBridge) : servers (perform c b) = servers b.
Proof.
  destruct c as [now|now k m|now k d|k|now a n|now|]; simpl.
  - unfold initialize. simpl.
    now destruct (initialize_loop_stats now (servers b) b) as (_ & _ & _ & _ & H & _).
  - unfold sendMessage.
    destruct (Map_get k (connections b)) as [c0|]; [|reflexivity].
    destruct (negb (status c0 =? "connected")); [reflexivity|].
    destruct (server_status (server c0) =? "simulated"); [reflexivity|].
    destruct (ws c0); reflexivity.
  - unfold handleMessage. destruct d; [|reflexivity].
    destruct (Map_get k (connections b)); reflexivity.
  - unfold handleDisconnect. destruct (Map_get k (connections b)); reflexivity.
  - unfold updateStats. destruct a; reflexivity.
  - apply ping_loop_servers.
  - unfold close. simpl.
    now destruct (close_loop_frame (Map_values (connections b)) b) as (_ & _ & _ & H & _).
Qed.

(** X16.  The registry is static: no method registers, replaces or removes
    a server, so in every state of a bridge the registered servers are the
    three the constructor set up, all simulated, in this order. *)
Theorem registry_is_static (b : MCPBridge) :
  reachable b ->
  map fst (servers b) = ["demo-server"; "ai-assistant"; "file-manager"] /\
  forall serverId s,
    In (serverId, s) (servers b) -> server_status s = "simulated".
Proof.
  intros Hreach.
  assert (Heq : servers b = servers (new_MCPBridge 0)).
  { induction Hreach as [t0|b c _ IH|b now k s _ IH|b now k s w _ IH].
    - reflexivity.
    - now rewrite perform_servers.
    - now destruct (connectToServer_frame now k s b) as (-> & _).
    - exact IH. }
  rewrite Heq. split; [reflexivity|].
  simpl. intros k s [H|[H|[H|[]]]]; injection H as <- <-; reflexivity.
Qed.

(** X17.  On a simulated connected endpoint a method name that is neither
    one of the three of the table nor a member of [Object.prototype] is
    answered with the generic
    [{ result: { message: 'Demo response', status: 'success' } }], when the
    [name] parameter is neither an array nor an object; the bridge is
    unchanged. *)
Theorem unlisted_method_gets_demo_response (now : Date) (serverId m : string)
    (p : value) (b : MCPBridge) (c : Connection) :
  Map_get serverId (connections b) = Some c ->
  is_connected c = true ->
  is_simulated c = true ->
  m <> "tools/list" -> m <> "tools/call" -> m <> "resources/list" ->
  inherited m = false ->
  primitive (params_name {| method := VStr m; params := p |}) = true ->
  sendMessage now serverId {| method := VStr m; params := p |} b
  = (Normal (Data demo_response), b).
Proof.
  intros Hget Hconn Hsim H1 H2 H3 Hplain Hprim.
  rewrite (sendMessage_simulated now serverId _ b c Hget Hconn Hsim). f_equal.
  assert (Hor : primitive (or_else (params_name {| method := VStr m; params := p |})
                                   (VStr "unknown")) = true).
  { unfold or_else. destruct (truthy _); auto. }
  destruct (ToString_primitive _ Hor) as [tool Htool].
  exact (simulateResponse_plain_method m tool p H1 H2 H3 Hplain Htool).
Qed.

(** X18.  On a simulated connected endpoint [tools/call] whose [name]
    parameter is a non-empty string answers with one text item that reads
    [Tool executed successfully: ] followed by that name, whatever the other
    parameters are. *)
Theorem tools_call_reports_name (now : Date) (serverId tool : string)
    (rest : list (string * value)) (b : MCPBridge) (c : Connection) :
  Map_get serverId (connections b) = Some c ->
  is_connected c = true ->
  is_simulated c = true ->
  tool <> "" ->
  fst (sendMessage now serverId
         {| method := VStr "tools/call"; params := VObj (("name", VStr tool) :: rest) |} b)
  = Normal (Data (VObj [("result", VObj [("content", VArr
      [ VObj [("type", VStr "text");
              ("text", VStr ("Tool executed successfully: " ++ tool))] ])])])).
Proof.
  intros Hget Hconn Hsim Hne.
  rewrite (sendMessage_simulated now serverId _ b c Hget Hconn Hsim). cbn [fst].
  now apply simulateResponse_tools_call.
Qed.

End BridgeFacts.

(** ** The further properties on the platform's bridge *)

Lemma platform_reachable : reachable platform.
Proof. exact (reach_call (new_MCPBridge 0) (call_initialize 1) (reach_new 0)). Defined.

Lemma platform_with_live_reachable : reachable platform_with_live.
Proof.
  exact (reach_open _ 3 "live" live_server live_socket_handle
           (reach_connect _ 2 "live" live_server platform_reachable)).
Defined.

Lemma connections_keyed_by_id_witness :
  reachable platform_with_live /\
  NoDup (map view_id (getConnections platform_with_live)).
Proof.
  split; [exact platform_with_live_reachable|].
  exact (proj1 (connections_keyed_by_id platform_with_live platform_with_live_reachable)).
Defined.

Lemma views_connected_or_disconnected_witness :
  In {| view_id := "demo-server"; view_name := "Demo Server";
        view_status := "disconnected";
        view_capabilities := ["tools"; "resources"; "prompts"];
        view_messageCount := 0; view_lastPing := 1 |}
     (getConnections (perform (call_handleDisconnect "demo-server") platform)) /\
  ("disconnected" = "connected" \/ "disconnected" = "disconnected").
Proof.
  assert (Hin : In {| view_id := "demo-server"; view_name := "Demo Server";
                      view_status := "disconnected";
                      view_capabilities := ["tools"; "resources"; "prompts"];
                      view_messageCount := 0; view_lastPing := 1 |}
                   (getConnections (perform (call_handleDisconnect "demo-server") platform))).
  { left. vm_compute. reflexivity. }
  split; [exact Hin|].
  destruct (views_connected_or_disconnected
              (perform (call_handleDisconnect "demo-server") platform)
              {| view_id := "demo-server"; view_name := "Demo Server";
                 view_status := "disconnected";
                 view_capabilities := ["tools"; "resources"; "prompts"];
                 view_messageCount := 0; view_lastPing := 1 |}
              (reach_call platform (call_handleDisconnect "demo-server") platform_reachable)
              Hin) as [Hstatus _].
  exact Hstatus.
Defined.

Lemma initialize_connects_simulated_witness :
  exists c,
    Map_get "demo-server" (connections (initialize 1 (new_MCPBridge 0))) = Some c /\
    status c = "connected" /\ messageCount c = 0%Z /\ lastPing c = 1%Z /\ ws c = None.
Proof.
  apply (initialize_connects_simulated 1 (new_MCPBridge 0) "demo-server" demo_server).
  - left. reflexivity.
  - reflexivity.
Defined.

Lemma handleDisconnect_twice_witness :
  activeConnections (getStats (on_close "demo-server" (on_error "demo-server" platform)))
  = 1%Z /\
  connections (on_close "demo-server" (on_error "demo-server" platform))
  = connections (on_error "demo-server" platform).
Proof.
  destruct (handleDisconnect_twice "demo-server" platform
              {| id := "demo-server"; server := demo_server; ws := None;
                 status := "connected"; lastPing := 1; messageCount := 0 |} eq_refl)
    as (_ & Hsame & _ & Htwo).
  split; [exact Htwo | exact Hsame].
Defined.

Lemma events_for_unknown_id_witness :
  Map_get "missing-id" (connections platform) = None /\
  handleDisconnect "missing-id" platform = platform /\
  getStats (handleMessage 2 "missing-id" (parses_to VNull) platform) = getStats platform.
Proof.
  split; [reflexivity|].
  destruct (events_for_unknown_id 2 "missing-id" (parses_to VNull) platform eq_refl)
    as (Hd & _ & Hs & _).
  split; [exact Hd | exact Hs].
Defined.

Lemma frames_are_counted_witness :
  exists c',
    Map_get "demo-server"
      (connections (receive_all 2 "demo-server" [VNull; VBool true; VStr "x"] platform))
    = Some c' /\
    messageCount c' = 3%Z.
Proof.
  destruct (frames_are_counted 2 "demo-server" [VNull; VBool true; VStr "x"] platform
              {| id := "demo-server"; server := demo_server; ws := None;
                 status := "connected"; lastPing := 1; messageCount := 0 |} eq_refl)
    as (c' & Hget & Hcount & _).
  exists c'. split; [exact Hget | exact Hcount].
Defined.

Lemma pingServers_frames_witness :
  NoDup (map fst (connections platform_with_live)) /\
  socket_calls (pingServers 9 platform_with_live)
  = [ws_new live_socket_handle; ws_send live_socket_handle heartbeat].
Proof.
  assert (Hnd : NoDup (map fst (connections platform_with_live))).
  { exact (proj1 (reachable_tidy _ platform_with_live_reachable)). }
  split; [exact Hnd|].
  exact (proj1 (pingServers_frames 9 platform_with_live Hnd)).
Defined.

Lemma connectToServer_throws_iff_witness :
  fst (connectToServer 2 "web" {| name := "Web"; url := "http://localhost/";
                                  server_status := "live"; capabilities := [];
                                  tools := [] |} platform)
  = Throw (Error "Failed to connect to Web: Invalid URL: http://localhost/").
Proof.
  apply (proj2 (connectToServer_throws_iff 2 "web" _ platform _)).
  split; [discriminate|].
  exists "Invalid URL: http://localhost/". repeat split.
Defined.

Lemma live_server_needs_open_witness :
  fst (sendMessage 4 "live" tools_list (snd (connectToServer 2 "live" live_server platform)))
  = Throw (UnknownEndpointError "live") /\
  fst (sendMessage 4 "live" tools_list platform_with_live) = Normal (Sent 4).
Proof.
  destruct (live_server_needs_open 2 3 4 "live" live_server tools_list platform)
    as (_ & Hbefore & Hafter & _); [discriminate | reflexivity | reflexivity |].
  split; [exact Hbefore | exact Hafter].
Defined.

Lemma simulated_call_errors_witness :
  exists r, fst (sendMessage 2 "demo-server" ping platform) = Normal r.
Proof.
  destruct (simulated_call_errors 2 "demo-server" ping platform
              {| id := "demo-server"; server := demo_server; ws := None;
                 status := "connected"; lastPing := 1; messageCount := 0 |}
              eq_refl eq_refl eq_refl) as (_ & Hreturns).
  apply Hreturns; reflexivity.
Defined.

Lemma tools_call_without_name_witness :
  simulateResponse {| method := VStr "tools/call"; params := VObj [("name", VStr "")] |}
  = Normal (Data (VObj [("result", VObj [("content", VArr
      [ VObj [("type", VStr "text");
              ("text", VStr "Tool executed successfully: unknown")] ])])])).
Proof.
  apply tools_call_without_name; reflexivity.
Defined.

Lemma registry_is_static_witness :
  map fst (servers (close platform_with_live))
  = ["demo-server"; "ai-assistant"; "file-manager"].
Proof.
  exact (proj1 (registry_is_static _
                  (reach_call platform_with_live call_close platform_with_live_reachable))).
Defined.

Lemma unlisted_method_gets_demo_response_witness :
  sendMessage 2 "demo-server" ping platform = (Normal (Data demo_response), platform).
Proof.
  apply (unlisted_method_gets_demo_response 2 "demo-server" "ping" (VObj []) platform
           {| id := "demo-server"; server := demo_server; ws := None;
              status := "connected"; lastPing := 1; messageCount := 0 |});
    try reflexivity; discriminate.
Defined.

Lemma tools_call_reports_name_witness :
  fst (sendMessage 2 "ai-assistant"
         {| method := VStr "tools/call";
            params := VObj [("name", VStr "chat"); ("arguments", VObj [])] |} platform)
  = Normal (Data (VObj [("result", VObj [("content", VArr
      [ VObj [("type", VStr "text");
              ("text", VStr "Tool executed successfully: chat")] ])])])).
Proof.
  apply (tools_call_reports_name 2 "ai-assistant" "chat" [("arguments", VObj [])] platform
           {| id := "ai-assistant";
              server :=
                {| name := "AI Assistant";
                   url := "ws://localhost:3002/mcp";
                   server_status := "simulated";
                   capabilities := ["prompts"; "completion"];
                   tools :=
                     [ {| tool_name := "chat"; tool_description := "AI chat interface" |};
                       {| tool_name := "analyze"; tool_description := "Text analysis" |} ] |};
              ws := None; status := "connected"; lastPing := 1; messageCount := 0 |});
    try reflexivity; discriminate.
Defined.

(** * Properties of the callers of the bridge *)

Section CallerFacts.
Context {host : Host} {persistence : Persistence}.

Lemma sendMessage_any_keeps (now : Date) (serverId : value) (message : Message)
    (b : MCPBridge) :
  connections (snd (sendMessage_any now serverId message b)) = connections b /\
  stats (snd (sendMessage_any now serverId message b)) = stats b.
Proof.
  destruct serverId; simpl; auto.
  destruct (sendMessage_keeps now s message b) as (Hc & Hs & _). auto.
Qed.

(** X19.  [POST /mcp/call] answers 400 with
    [serverId and method are required] when the request body has no
    [serverId] or no [method], or a falsy one; the request then reaches
    neither the bridge nor the database. *)
Theorem post_mcp_call_requires_id_and_method (now : Date) (request_body : value)
    (app : Locals) (bridge : MCPBridge) :
  mcpBridge app = Some bridge ->
  request_body <> VUndefined -> request_body <> VNull ->
  truthy (property "serverId" request_body) = false \/
  truthy (property "method" request_body) = false ->
  post_mcp_call now request_body app
  = ({| code := 400; body := error_body "serverId and method are required" |}, app).
Proof.
  intros Hbridge Hu Hn Hfalsy. unfold post_mcp_call. rewrite Hbridge.
  assert (Hd : destructure_call "req.body" request_body
               = Normal (property "serverId" request_body,
                         property "method" request_body,
                         match property "params" request_body with
                         | VUndefined => VObj []
                         | p => p
                         end)).
  { destruct request_body; try reflexivity; contradiction. }
  rewrite Hd.
  destruct Hfalsy as [-> | ->]; simpl; [reflexivity|].
  now rewrite orb_true_r.
Qed.

(** X20.  [POST /mcp/call] for a server id that has no connection answers
    500 with the message of the bridge's error,
    [No connection to server: <id>]; nothing is logged and nothing
    changes. *)
Theorem post_mcp_call_unknown_server (now : Date) (request_body : value)
    (app : Locals) (bridge : MCPBridge) (serverId : string) :
  mcpBridge app = Some bridge ->
  property "serverId" request_body = VStr serverId ->
  serverId <> "" ->
  truthy (property "method" request_body) = true ->
  Map_get serverId (connections bridge) = None ->
  post_mcp_call now request_body app
  = ({| code := 500; body := error_body ("No connection to server: " ++ serverId) |},
     app).
Proof.
  intros Hbridge Hid Hne Hmethod Habsent. unfold post_mcp_call. rewrite Hbridge.
  assert (Hd : destructure_call "req.body" request_body
               = Normal (VStr serverId,
                         property "method" request_body,
                         match property "params" request_body with
                         | VUndefined => VObj []
                         | p => p
                         end)).
  { rewrite <- Hid. destruct request_body; try reflexivity; discriminate Hid. }
  rewrite Hd. apply String.eqb_neq in Hne.
  cbn [truthy]. rewrite Hne, Hmethod. cbn [negb orb].
  unfold sendMessage_any, sendMessage. rewrite Habsent.
  destruct app as [mb db]. simpl in *. now rewrite Hbridge.
Qed.

(** X21.  [POST /mcp/call] on a simulated connected endpoint, with a
    database: the call is answered by [simulateResponse] and logged once as
    an [mcp-call] activity of source [api]; the reply is 200 with the result
    when the log succeeds, and 500 with the message of the log's error when
    it fails, although the call itself succeeded.  The bridge is unchanged
    either way. *)
Theorem post_mcp_call_simulated (now : Date) (request_body : value) (app : Locals)
    (bridge : MCPBridge) (db : Database) (serverId m : string) (c : Connection)
    (r : Response) :
  mcpBridge app = Some bridge ->
  database app = Some db ->
  property "serverId" request_body = VStr serverId ->
  property "method" request_body = VStr m ->
  serverId <> "" -> m <> "" ->
  Map_get serverId (connections bridge) = Some c ->
  is_connected c = true ->
  is_simulated c = true ->
  let params :=
    match property "params" request_body with
    | VUndefined => VObj []
    | p => p
    end in
  simulateResponse {| method := VStr m; params := params |} = Normal r ->
  post_mcp_call now request_body app
  = match logActivity "mcp-call" "api" ("MCP call: " ++ m)
            {| logged_serverId := VStr serverId; logged_method := VStr m;
               logged_params := params; logged_result := r |} db with
    | (Normal _, db') =>
        ({| code := 200; body := result_body r |},
         {| mcpBridge := Some bridge; database := Some db' |})
    | (Throw e, db') =>
        ({| code := 500; body := error_body (error_message e) |},
         {| mcpBridge := Some bridge; database := Some db' |})
    end.
Proof.
  intros Hbridge Hdb Hid Hmethod Hne Hnm Hget Hconn Hsim params Hresult.
  unfold post_mcp_call. rewrite Hbridge.
  assert (Hd : destructure_call "req.body" request_body
               = Normal (VStr serverId, VStr m, params)).
  { rewrite <- Hid, <- Hmethod. subst params.
    destruct request_body; try reflexivity; discriminate Hid. }
  rewrite Hd. apply String.eqb_neq in Hne, Hnm.
  cbn [truthy]. rewrite Hne, Hnm. cbn [negb orb].
  unfold sendMessage_any.
  rewrite (sendMessage_simulated now serverId _ bridge c Hget Hconn Hsim).
  rewrite Hresult, Hdb. cbn [ToString].
  destruct (logActivity _ _ _ _ db) as [[u|e] db']; reflexivity.
Qed.

(** X22.  Whatever the request, [POST /mcp/call] leaves the connection map
    and the stats of the bridge as they were: a call made through the route
    is never counted, and never connects or disconnects a server. *)
Theorem post_mcp_call_keeps_bridge (now : Date) (request_body : value)
    (app : Locals) (bridge : MCPBridge) :
  mcpBridge app = Some bridge ->
  exists bridge',
    mcpBridge (snd (post_mcp_call now request_body app)) = Some bridge' /\
    connections bridge' = connections bridge /\
    getStats bridge' = getStats bridge.
Proof.
  intros Hbridge. unfold post_mcp_call, getStats. rewrite Hbridge.
  destruct (destructure_call "req.body" request_body) as [[[sid mth] prm]|e];
    [|exists bridge; simpl; auto].
  destruct (negb (truthy sid) || negb (truthy mth)); [exists bridge; simpl; auto|].
  destruct (sendMessage_any_keeps now sid {| method := mth; params := prm |} bridge)
    as [Hc Hs].
  destruct (sendMessage_any now sid {| method := mth; params := prm |} bridge)
    as [[result|e] bridge']; simpl in Hc, Hs.
  - exists bridge'.
    destruct (database app) as [db|]; [|simpl; auto].
    destruct (ToString mth) as [text|e]; [|simpl; auto].
    destruct (logActivity _ _ _ _ db) as [[u|e] db']; simpl; auto.
  - exists bridge'. simpl. auto.
Qed.

(** X23.  The socket handler does not check its arguments as the route
    does.  A call that names a simulated connected server and no method is
    refused by the route with 400, while [handleMCPCall] passes it to the
    bridge, which answers the generic demo response, and logs it as
    [MCP call: undefined]. *)
Theorem handleMCPCall_without_method (now : Date) (data : value) (ctl : Controller)
    (app : Locals) (serverId : string) (c : Connection) :
  property "serverId" data = VStr serverId ->
  property "method" data = VUndefined ->
  property "params" data = VUndefined ->
  Map_get serverId (connections (controller_mcpBridge ctl)) = Some c ->
  is_connected c = true ->
  is_simulated c = true ->
  mcpBridge app = Some (controller_mcpBridge ctl) ->
  post_mcp_call now data app
  = ({| code := 400; body := error_body "serverId and method are required" |}, app) /\
  handleMCPCall now data ctl
  = match logActivity "mcp-call" "web-interface" "MCP call: undefined"
            {| logged_serverId := VStr serverId; logged_method := VUndefined;
               logged_params := VObj []; logged_result := Data demo_response |}
            (controller_database ctl) with
    | (Normal _, db') =>
        (mcp_result (VStr serverId) VUndefined (Data demo_response),
         {| controller_mcpBridge := controller_mcpBridge ctl;
            controller_database := db' |})
    | (Throw e, db') =>
        (socket_error "MCP call failed" (error_message e),
         {| controller_mcpBridge := controller_mcpBridge ctl;
            controller_database := db' |})
    end.
Proof.
  intros Hid Hmethod Hparams Hget Hconn Hsim Hbridge. split.
  - unfold post_mcp_call. rewrite Hbridge.
    assert (Hd : destructure_call "req.body" data
                 = Normal (VStr serverId, VUndefined, VObj [])).
    { rewrite <- Hid, <- Hmethod at 1. unfold destructure_call. rewrite Hparams.
      destruct data; try reflexivity; discriminate Hid. }
    rewrite Hd. cbn [truthy negb]. now rewrite orb_true_r.
  - unfold handleMCPCall.
    assert (Hd : destructure_call "data" data
                 = Normal (VStr serverId, VUndefined, VObj [])).
    { rewrite <- Hid, <- Hmethod at 1. unfold destructure_call. rewrite Hparams.
      destruct data; try reflexivity; discriminate Hid. }
    rewrite Hd. unfold sendMessage_any.
    rewrite (sendMessage_simulated now serverId _ _ c Hget Hconn Hsim).
    cbn.
    destruct (logActivity _ _ _ _ (controller_database ctl)) as [[u|e] db'];
      reflexivity.
Qed.

End CallerFacts.

(** ** The callers on the platform *)

Lemma post_mcp_call_requires_id_and_method_witness :
  post_mcp_call 2 (VObj [("serverId", VStr "demo-server")])
    {| mcpBridge := Some platform; database := Some no_activity |}
  = ({| code := 400; body := error_body "serverId and method are required" |},
     {| mcpBridge := Some platform; database := Some no_activity |}).
Proof.
  apply (post_mcp_call_requires_id_and_method 2 (VObj [("serverId", VStr "demo-server")])
           {| mcpBridge := Some platform; database := Some no_activity |} platform eq_refl).
  - discriminate.
  - discriminate.
  - right. reflexivity.
Defined.

Lemma post_mcp_call_unknown_server_witness :
  post_mcp_call 2 (VObj [("serverId", VStr "missing-id"); ("method", VStr "ping")])
    {| mcpBridge := Some platform; database := Some no_activity |}
  = ({| code := 500; body := error_body "No connection to server: missing-id" |},
     {| mcpBridge := Some platform; database := Some no_activity |}).
Proof.
  apply (post_mcp_call_unknown_server 2
           (VObj [("serverId", VStr "missing-id"); ("method", VStr "ping")])
           {| mcpBridge := Some platform; database := Some no_activity |} platform "missing-id"
           eq_refl eq_refl).
  - discriminate.
  - reflexivity.
  - reflexivity.
Defined.

Lemma post_mcp_call_simulated_witness :
  code (fst (post_mcp_call 2
               (VObj [("serverId", VStr "demo-server"); ("method", VStr "ping")])
               {| mcpBridge := Some platform; database := Some no_activity |}))
  = 200%Z.
Proof.
  rewrite (post_mcp_call_simulated 2
             (VObj [("serverId", VStr "demo-server"); ("method", VStr "ping")])
             {| mcpBridge := Some platform; database := Some no_activity |} platform no_activity
             "demo-server" "ping"
             {| id := "demo-server"; server := demo_server; ws := None;
                status := "connected"; lastPing := 1; messageCount := 0 |}
             (Data demo_response) eq_refl eq_refl eq_refl eq_refl).
  - reflexivity.
  - discriminate.
  - discriminate.
  - reflexivity.
  - reflexivity.
  - reflexivity.
  - reflexivity.
Defined.

Lemma post_mcp_call_keeps_bridge_witness :
  exists bridge',
    mcpBridge (snd (post_mcp_call 2
                      (VObj [("serverId", VStr "demo-server"); ("method", VStr "ping")])
                      {| mcpBridge := Some platform; database := None |}))
    = Some bridge' /\
    connections bridge' = connections platform /\
    getStats bridge' = getStats platform.
Proof.
  exact (post_mcp_call_keeps_bridge 2
           (VObj [("serverId", VStr "demo-server"); ("method", VStr "ping")])
           {| mcpBridge := Some platform; database := None |} platform eq_refl).
Defined.

Lemma handleMCPCall_without_method_witness :
  fst (handleMCPCall 2 (VObj [("serverId", VStr "demo-server")])
         {| controller_mcpBridge := platform; controller_database := no_activity |})
  = mcp_result (VStr "demo-server") VUndefined (Data demo_response).
Proof.
  destruct (handleMCPCall_without_method 2 (VObj [("serverId", VStr "demo-server")])
              {| controller_mcpBridge := platform; controller_database := no_activity |}
              {| mcpBridge := Some platform; database := None |}
              "demo-server"
              {| id := "demo-server"; server := demo_server; ws := None;
                 status := "connected"; lastPing := 1; messageCount := 0 |}
              eq_refl eq_refl eq_refl eq_refl eq_refl eq_refl eq_refl) as [_ Hsocket].
  rewrite Hsocket. reflexivity.
Defined.

(** * Properties of the Discord bot *)

Section BotFacts.
Context {text : Text}.





End BotFacts.





